(** * A key-value service over HTTP: model of [service.go] and its properties

    The service keeps one in-memory map guarded by a mutex and answers
    [/set] and [/get] requests whose bodies are JSON documents.  This file
    embeds the program as Rocq functions:

    - configuration resolution ([useEnvOrDefaultIfNotSet], the flag
      defaults computed in [main]) over a small model of Go's [interface{}]
      values, with panics as results;
    - the handlers ([SetHandler], [GetHandler], the two probes and
      [MiddlewareLogRequest]) in a state monad over the store and the
      response recorder, which also emits the sequence of effects a handler
      performs (lock, unlock, body read, map access, response write, log);
    - the part of [encoding/json] the handlers rely on: filling a struct of
      string fields from a scanned JSON document.

    Strings are byte strings ([string] of the Standard Library), the store is
    a [gmap] from keys to values, durations are integers counting
    nanoseconds. *)

From Stdlib Require Import ZArith String Ascii List Bool Lia.
From stdpp Require Import base option gmap strings pretty.

Open Scope string_scope.
Open Scope Z_scope.

(** ** Go values behind [interface{}] and panics *)

Module Config.

(** A value of type [interface{}] as [useEnvOrDefaultIfNotSet] can meet it:
    the nil interface, a [string], a [time.Duration] (nanoseconds), a
    [bool], or a value of some other dynamic type, of which only the type's
    name matters (the test passes a [[]int]). *)
Inductive any : Type :=
  | Nil
  | OfString (s : string)
  | OfDuration (d : Z)
  | OfBool (b : bool)
  | OfOther (type_name : string).

(** The outcome of a computation that may panic. *)
Inductive result (A : Type) : Type :=
  | Ok (a : A)
  | Panic (msg : string).
Arguments Ok {A} a.
Arguments Panic {A} msg.

#[global] Instance result_ret : MRet result := fun A a => Ok a.

#[global] Instance result_bind : MBind result := fun A B f r =>
  match r with
  | Ok a => f a
  | Panic msg => Panic msg
  end.

(** [%T] of a value. *)
Definition type_of (v : any) : string :=
  match v with
  | Nil => "<nil>"
  | OfString _ => "string"
  | OfDuration _ => "time.Duration"
  | OfBool _ => "bool"
  | OfOther t => t
  end.

(** The runtime's message for a failed type assertion [v.(T)]. *)
Definition conversion_panic (v : any) (want : string) : string :=
  "interface conversion: interface {} is "
  +:+ (match v with Nil => "nil" | _ => type_of v end)
  +:+ ", not " +:+ want.

(** [v.(string)], [v.(time.Duration)] and [v.(bool)]. *)
Definition assert_string (v : any) : result string :=
  match v with
  | OfString s => Ok s
  | _ => Panic (conversion_panic v "string")
  end.

Definition assert_Duration (v : any) : result Z :=
  match v with
  | OfDuration d => Ok d
  | _ => Panic (conversion_panic v "time.Duration")
  end.

Definition assert_bool (v : any) : result bool :=
  match v with
  | OfBool b => Ok b
  | _ => Panic (conversion_panic v "bool")
  end.

(** [useEnvOrDefaultIfNotSet]: the nil check, then the type switch.  The
    [string] case falls out of the switch to [return envValue] when the
    string is not empty; so does the [time.Duration] case when the duration
    is not zero.  A zero duration returns [defaultValue.(time.Duration)],
    an assertion of its own. *)
Definition useEnvOrDefaultIfNotSet (envValue defaultValue : any) : result any :=
  match envValue with
  | Nil => Ok defaultValue
  | OfString v =>
      if (String.length v =? 0)%nat then Ok defaultValue else Ok envValue
  | OfDuration v =>
      if v =? 0 then
        d ← assert_Duration defaultValue; Ok (OfDuration d)
      else Ok envValue
  | _ => Panic ("unexpected type " +:+ type_of envValue)
  end.

(** [time.Second], in nanoseconds. *)
Definition Second : Z := 1000000000.

Record ServerConfig : Type := {
  ServiceName : string;
  ServerAddress : string;
  ShutdownTimeout : Z;
  EnableLoggingMiddleware : bool;
  ServiceVersion : string
}.

(** The process environment; [os.Getenv] gives the empty string for a
    variable that is not set. *)
Definition Getenv (environ : gmap string string) (name : string) : string :=
  default "" (environ !! name).

(** The command line after [flag.Parse]: for each of the three flags, the
    parsed value when the flag was given. *)
Record Flags : Type := {
  flag_address : option string;
  flag_shutdown_timeout : option Z;
  flag_enable_logging_middleware : option bool
}.

Definition no_flags : Flags :=
  {| flag_address := None;
     flag_shutdown_timeout := None;
     flag_enable_logging_middleware := None |}.

(** The default handed to each [flag.String], [flag.Duration] and
    [flag.Bool]: the helper applied to the string [os.Getenv] returns,
    followed by the type assertion written in [main]. *)
Definition address_default (environ : gmap string string) : result string :=
  v ← useEnvOrDefaultIfNotSet (OfString (Getenv environ "SERVER_ADDRESS"))
                              (OfString "localhost:8080");
  assert_string v.

Definition shutdownTimeout_default (environ : gmap string string) : result Z :=
  v ← useEnvOrDefaultIfNotSet (OfString (Getenv environ "SHUTDOWN_TIMEOUT"))
                              (OfDuration (Second * 10));
  assert_Duration v.

Definition enableLoggingMiddleware_default (environ : gmap string string)
  : result bool :=
  v ← useEnvOrDefaultIfNotSet
        (OfString (Getenv environ "ENABLE_LOGGING_MIDDLEWARE")) (OfBool false);
  assert_bool v.

(** [main] up to the call of [env.server()]: the three defaults are computed
    first, in the order of the [var] block and before the command line is
    looked at; a flag that was given then replaces its default. *)
Definition main (version : string) (environ : gmap string string)
    (flags : Flags) : result ServerConfig :=
  serverPort ← address_default environ;
  shutdownTimeout ← shutdownTimeout_default environ;
  enableLoggingMiddleware ← enableLoggingMiddleware_default environ;
  Ok {| ServiceName := "key-value-service-v1";
        ServerAddress := default serverPort (flag_address flags);
        ShutdownTimeout := default shutdownTimeout (flag_shutdown_timeout flags);
        EnableLoggingMiddleware :=
          default enableLoggingMiddleware (flag_enable_logging_middleware flags);
        ServiceVersion := version |}.

End Config.

(** What [flag.Parse] makes of the arguments of the process.  The flag set
    exits on error: arguments that do not parse, or a request for help, end
    the process with a status; otherwise the values of the flags that were
    given are delivered. *)
Inductive CommandLine : Type :=
  | Refused (status : Z)
  | Parsed (flags : Config.Flags).

(** How [main] ends before [env.server()] is called, or that it gets
    there. *)
Inductive Startup : Type :=
  | Configured (cfg : Config.ServerConfig)
  | Panics (msg : string)
  | Exits (status : Z).

(** [main] from the arguments of the process: the three defaults, then
    [flag.Parse], then the configuration. *)
Definition main_process (version : string) (environ : gmap string string)
    (args : CommandLine) : Startup :=
  match Config.address_default environ with
  | Config.Panic msg => Panics msg
  | Config.Ok serverPort =>
      match Config.shutdownTimeout_default environ with
      | Config.Panic msg => Panics msg
      | Config.Ok shutdownTimeout =>
          match Config.enableLoggingMiddleware_default environ with
          | Config.Panic msg => Panics msg
          | Config.Ok enableLoggingMiddleware =>
              match args with
              | Refused status => Exits status
              | Parsed flags =>
                  Configured
                    {| Config.ServiceName := "key-value-service-v1";
                       Config.ServerAddress :=
                         default serverPort (Config.flag_address flags);
                       Config.ShutdownTimeout :=
                         default shutdownTimeout
                                 (Config.flag_shutdown_timeout flags);
                       Config.EnableLoggingMiddleware :=
                         default enableLoggingMiddleware
                                 (Config.flag_enable_logging_middleware flags);
                       Config.ServiceVersion := version |}
              end
          end
      end
  end.

(** ** The part of [encoding/json] behind [Decode(&payload)] *)

Module json.

#[local] Set Warnings "-register-all".

(** A scanned JSON value.  A number keeps its literal; the decoder below
    never looks inside it. *)
Inductive value : Type :=
  | Null
  | Bool (b : bool)
  | Number (literal : string)
  | String_ (s : string)
  | Array (elements : list value)
  | Object (members : list (string * value)).

(** How the JSON kind of a value is named in an [UnmarshalTypeError]. *)
Definition describe (v : value) : string :=
  match v with
  | Null => "null"
  | Bool _ => "bool"
  | Number _ => "number"
  | String_ _ => "string"
  | Array _ => "array"
  | Object _ => "object"
  end.

Record UnmarshalTypeError : Type := {
  Value : string;    (* description of the JSON value *)
  Type_ : string;    (* name of the Go type it could not be assigned to *)
  Struct : string;   (* name of the struct type containing the field *)
  Field : string     (* name of the field, as the member is written *)
}.

(** What [Decode] can return as its error: the scanner's failure on the
    bytes of the body (a syntax error, [EOF] on an empty body, a failed
    read), of which only the text matters here, or a type mismatch found
    while filling the struct. *)
Inductive error : Type :=
  | ScanError (text : string)
  | TypeError (e : UnmarshalTypeError).

Definition Error (err : error) : string :=
  match err with
  | ScanError text => text
  | TypeError e =>
      if negb (String.eqb (Struct e) "") || negb (String.eqb (Field e) "") then
        "json: cannot unmarshal " +:+ Value e +:+ " into Go struct field "
        +:+ Struct e +:+ "." +:+ Field e +:+ " of type " +:+ Type_ e
      else
        "json: cannot unmarshal " +:+ Value e +:+ " into Go value of type "
        +:+ Type_ e
  end.

(** [saveError]: the first error met is the one reported. *)
Definition saveError (saved : option UnmarshalTypeError)
    (e : option UnmarshalTypeError) : option UnmarshalTypeError :=
  match saved with
  | Some _ => saved
  | None => e
  end.

(** Case folding of a member name, as far as it can make the name equal to
    a field name written in ASCII letters: ASCII lower case goes to upper
    case, and the only two other runes whose fold orbit holds an ASCII
    letter, the Kelvin sign (bytes E2 84 AA) and the long s (bytes C5 BF),
    go to [K] and [S].  Every other byte of a multi-byte rune is kept, so the
    folded name is then no ASCII string. *)
Definition upper (c : ascii) : ascii :=
  let n := nat_of_ascii c in
  if ((97 <=? n) && (n <=? 122))%nat then ascii_of_nat (n - 32) else c.

Fixpoint foldName (s : string) : string :=
  match s with
  | EmptyString => EmptyString
  | String "226"%char (String "132"%char (String "170"%char rest)) =>
      String "K"%char (foldName rest)
  | String "197"%char (String "191"%char rest) =>
      String "S"%char (foldName rest)
  | String c rest => String (upper c) (foldName rest)
  end.

(** A member named [key] is stored in the field named [name] when the two
    are equal, or else equal after folding. *)
Definition field_matches (name key : string) : bool :=
  String.eqb key name || String.eqb (foldName key) (foldName name).

(** Storing a JSON value into a field of a string type ([Key], [Value]):
    a JSON string is assigned, [null] leaves the field as it is, anything
    else is a type mismatch that leaves the field as it is. *)
Definition store_string (struct_name field_name type_name : string)
    (item : value) (current : string) : string * option UnmarshalTypeError :=
  match item with
  | String_ s => (s, None)
  | Null => (current, None)
  | _ => (current,
          Some {| Value := describe item; Type_ := type_name;
                  Struct := struct_name; Field := field_name |})
  end.

(** The mismatch reported when the document itself is no object. *)
Definition not_a_struct (type_name : string) (doc : value)
  : option UnmarshalTypeError :=
  Some {| Value := describe doc; Type_ := type_name;
          Struct := ""; Field := "" |}.

(** The body of a request as the decoder meets it: either the scanner fails
    before a complete JSON value has been read, or it delivers the first
    JSON value of the body (whatever follows that value is not read). *)
Inductive Body : Type :=
  | Unreadable (text : string)
  | Document (doc : value).

End json.

(** ** The wire types *)

Abbreviation Key := string (only parsing).
Abbreviation Value := string (only parsing).

Record SetRequest : Type := {
  SetRequest_Key : Key;      (* `json:"key"` *)
  SetRequest_Value : Value   (* `json:"value"` *)
}.

Record GetRequest : Type := {
  GetRequest_Key : Key       (* `json:"key"` *)
}.

Record GetResponse : Type := {
  GetResponse_Value : Value  (* `json:"value"` *)
}.

(** Filling a [SetRequest] from the members of a JSON object, in the order
    they are written: a later member overwrites an earlier one, a member
    that matches no field is skipped.  A type error names the field by the
    name of the member as it is written in the body. *)
Fixpoint object_SetRequest (members : list (string * json.value))
    (payload : SetRequest) (saved : option json.UnmarshalTypeError)
  : SetRequest * option json.UnmarshalTypeError :=
  match members with
  | [] => (payload, saved)
  | (name, item) :: rest =>
      if json.field_matches "key" name then
        let '(k, e) := json.store_string "SetRequest" name "main.Key" item
                         (SetRequest_Key payload) in
        object_SetRequest rest
          {| SetRequest_Key := k; SetRequest_Value := SetRequest_Value payload |}
          (json.saveError saved e)
      else if json.field_matches "value" name then
        let '(v, e) := json.store_string "SetRequest" name "main.Value" item
                         (SetRequest_Value payload) in
        object_SetRequest rest
          {| SetRequest_Key := SetRequest_Key payload; SetRequest_Value := v |}
          (json.saveError saved e)
      else object_SetRequest rest payload saved
  end.

Fixpoint object_GetRequest (members : list (string * json.value))
    (payload : GetRequest) (saved : option json.UnmarshalTypeError)
  : GetRequest * option json.UnmarshalTypeError :=
  match members with
  | [] => (payload, saved)
  | (name, item) :: rest =>
      if json.field_matches "key" name then
        let '(k, e) := json.store_string "GetRequest" name "main.Key" item
                         (GetRequest_Key payload) in
        object_GetRequest rest {| GetRequest_Key := k |} (json.saveError saved e)
      else object_GetRequest rest payload saved
  end.

Definition lift_error (e : option json.UnmarshalTypeError) : option json.error :=
  json.TypeError <$> e.

(** [json.NewDecoder(r.Body).Decode(&payload)] for a [payload] declared just
    before, so holding empty strings: the payload after the call and the
    error returned.  [null] is accepted and stores nothing. *)
Definition Decode_SetRequest (body : json.Body) : SetRequest * option json.error :=
  let payload := {| SetRequest_Key := ""; SetRequest_Value := "" |} in
  match body with
  | json.Unreadable text => (payload, Some (json.ScanError text))
  | json.Document json.Null => (payload, None)
  | json.Document (json.Object members) =>
      let '(p, e) := object_SetRequest members payload None in (p, lift_error e)
  | json.Document doc =>
      (payload, lift_error (json.not_a_struct "main.SetRequest" doc))
  end.

Definition Decode_GetRequest (body : json.Body) : GetRequest * option json.error :=
  let payload := {| GetRequest_Key := "" |} in
  match body with
  | json.Unreadable text => (payload, Some (json.ScanError text))
  | json.Document json.Null => (payload, None)
  | json.Document (json.Object members) =>
      let '(p, e) := object_GetRequest members payload None in (p, lift_error e)
  | json.Document doc =>
      (payload, lift_error (json.not_a_struct "main.GetRequest" doc))
  end.

(** ** Requests and the response recorder *)

Module http.

Definition StatusOK : Z := 200.
Definition StatusAccepted : Z := 202.
Definition StatusBadRequest : Z := 400.
Definition StatusNotFound : Z := 404.

(** The fields of a request the program reads.  [Header] lists the header
    names with their values in the order in which [range r.Header] happens
    to visit them. *)
Record Request : Type := {
  Method : string;
  URL_Path : string;
  RemoteAddr : string;
  Header : list (string * list string);
  Body : json.Body
}.

End http.

Module httptest.

(** The response as a handler builds it, with the behaviour every
    [http.ResponseWriter] has: the first [WriteHeader] fixes the status code
    and the headers, later ones are ignored, and a [Write] that comes before
    any [WriteHeader] fixes status 200 first.  (Guessing a Content-Type for a
    response that has none is left out: the handlers that write a body set
    the Content-Type before anything else.) *)
Record ResponseRecorder : Type := {
  Code : Z;
  HeaderMap : gmap string (list string);
  Body : string;
  wroteHeader : bool;
  snapHeader : option (gmap string (list string))
}.

Definition NewRecorder : ResponseRecorder :=
  {| Code := 200; HeaderMap := ∅; Body := ""; wroteHeader := false;
     snapHeader := None |}.

Definition Header_Set (name val : string) (rw : ResponseRecorder)
  : ResponseRecorder :=
  {| Code := Code rw; HeaderMap := <[name := [val]]> (HeaderMap rw);
     Body := Body rw; wroteHeader := wroteHeader rw;
     snapHeader := snapHeader rw |}.

Definition Header_Del (name : string) (rw : ResponseRecorder)
  : ResponseRecorder :=
  {| Code := Code rw; HeaderMap := delete name (HeaderMap rw);
     Body := Body rw; wroteHeader := wroteHeader rw;
     snapHeader := snapHeader rw |}.

Definition WriteHeader (code : Z) (rw : ResponseRecorder) : ResponseRecorder :=
  if wroteHeader rw then rw
  else {| Code := code; HeaderMap := HeaderMap rw; Body := Body rw;
          wroteHeader := true; snapHeader := Some (HeaderMap rw) |}.

Definition Write (data : string) (rw : ResponseRecorder) : ResponseRecorder :=
  let rw := WriteHeader 200 rw in
  {| Code := Code rw; HeaderMap := HeaderMap rw; Body := Body rw +:+ data;
     wroteHeader := wroteHeader rw; snapHeader := snapHeader rw |}.

End httptest.

(** ** Effects of a handler *)

(** What a handler does to the outside, in the order it does it.  A map
    read records what it found. *)
Inductive Event : Type :=
  | EvReadBody
  | EvLock
  | EvUnlock
  | EvMapStore (k : Key) (v : Value)
  | EvMapLoad (k : Key) (v : Value) (ok : bool)
  | EvWriteHeader (code : Z)
  | EvWrite (data : string)
  | EvLog (line : string).

(** How a run ends: the function returns; or it waits for ever on a mutex
    that nobody releases; or the runtime stops the program.  Each carries
    the state reached. *)
Inductive Outcome (S A : Type) : Type :=
  | Returns (a : A) (s : S)
  | Blocks (s : S)
  | Throws (msg : string) (s : S).
Arguments Returns {S A} a s.
Arguments Blocks {S A} s.
Arguments Throws {S A} msg s.

Definition final_state {S A : Type} (o : Outcome S A) : S :=
  match o with
  | Returns _ s => s
  | Blocks s => s
  | Throws _ s => s
  end.

(** A computation over a state [S]: from a state, the events emitted and the
    outcome.  Events are only ever appended; no computation can read them. *)
Definition M (S A : Type) : Type := S -> list Event * Outcome S A.

#[global] Instance M_ret {S : Type} : MRet (M S) := fun A a s => ([], Returns a s).

#[global] Instance M_bind {S : Type} : MBind (M S) := fun A B f m s =>
  match m s with
  | (t, Returns a s') => let '(t', o) := f a s' in ((t ++ t')%list, o)
  | (t, Blocks s') => (t, Blocks s')
  | (t, Throws msg s') => (t, Throws msg s')
  end.

Definition emit {S : Type} (e : Event) : M S unit := fun s => ([e], Returns tt s).

(** [defer f] at the top of a body: [f] runs when the body returns. *)
Definition defer {S A : Type} (deferred : M S unit) (body : M S A) : M S A :=
  a ← body; deferred;; mret a.

(** [log.Printf] and [log.Println], without the time stamp. *)
Definition log_Print {S : Type} (line : string) : M S unit := emit (EvLog line).

(** ** The store and the handlers *)

(** [sync.Mutex] is embedded in the store; [Mutex] tells whether it is
    locked. *)
Record KeyValueStore : Type := {
  Mutex : bool;
  kvMap : gmap string string
}.

(** What a handler of this program works on: the store it is a method of (or
    none that it touches, for the probes) and the response writer [w]. *)
Record World : Type := {
  kv : KeyValueStore;
  w : httptest.ResponseRecorder
}.

Definition HandlerFunc (S : Type) : Type := http.Request -> M S unit.

Definition with_w (f : httptest.ResponseRecorder -> httptest.ResponseRecorder)
    (s : World) : World :=
  {| kv := kv s; w := f (w s) |}.

Definition Header_Set (name val : string) : M World unit :=
  fun s => ([], Returns tt (with_w (httptest.Header_Set name val) s)).

Definition Header_Del (name : string) : M World unit :=
  fun s => ([], Returns tt (with_w (httptest.Header_Del name) s)).

(** Only the [WriteHeader] that takes effect reaches the connection. *)
Definition WriteHeader (code : Z) : M World unit :=
  fun s =>
    (if httptest.wroteHeader (w s) then [] else [EvWriteHeader code],
     Returns tt (with_w (httptest.WriteHeader code) s)).

Definition Write (data : string) : M World unit :=
  fun s =>
    (((if httptest.wroteHeader (w s) then [] else [EvWriteHeader 200])
        ++ [EvWrite data])%list,
     Returns tt (with_w (httptest.Write data) s)).

Definition newline : string := String "010" "".

(** [fmt.Fprintln(w, x)] for one operand whose text is [text]. *)
Definition Fprintln (text : string) : M World unit :=
  Write (text +:+ newline).

(** [http.Error]. *)
Definition http_Error (error : string) (code : Z) : M World unit :=
  Header_Del "Content-Length";;
  Header_Set "Content-Type" "text/plain; charset=utf-8";;
  Header_Set "X-Content-Type-Options" "nosniff";;
  WriteHeader code;;
  Fprintln error.

(** [kv.Lock()] waits while the mutex is locked; [kv.Unlock()] of a mutex
    that is not locked is a fatal error of the runtime. *)
Definition Lock : M World unit :=
  fun s =>
    if Mutex (kv s) then ([], Blocks s)
    else ([EvLock],
          Returns tt {| kv := {| Mutex := true; kvMap := kvMap (kv s) |};
                        w := w s |}).

Definition Unlock : M World unit :=
  fun s =>
    if Mutex (kv s) then
      ([EvUnlock],
       Returns tt {| kv := {| Mutex := false; kvMap := kvMap (kv s) |};
                     w := w s |})
    else ([], Throws "fatal error: sync: unlock of unlocked mutex" s).

(** [kv.kvMap[k] = v] *)
Definition kvMap_store (k : Key) (v : Value) : M World unit :=
  fun s =>
    ([EvMapStore k v],
     Returns tt {| kv := {| Mutex := Mutex (kv s);
                            kvMap := <[k := v]> (kvMap (kv s)) |};
                   w := w s |}).

(** [value, ok := kv.kvMap[k]]: the empty string and [false] for a key that
    is not in the map. *)
Definition lookup_ok (m : gmap string string) (k : Key) : Value * bool :=
  match m !! k with
  | Some v => (v, true)
  | None => ("", false)
  end.

Definition kvMap_load (k : Key) : M World (Value * bool) :=
  fun s =>
    let '(v, ok) := lookup_ok (kvMap (kv s)) k in
    ([EvMapLoad k v ok], Returns (v, ok) s).

(** Decoding reads the body of the request. *)
Definition decode {S A : Type} (dec : json.Body -> A) (r : http.Request) : M S A :=
  emit EvReadBody;; mret (dec (http.Body r)).

Definition SetHandler : HandlerFunc World := fun r =>
  Header_Set "Content-Type" "text/plain";;
  '(payload, err) ← decode Decode_SetRequest r;
  match err with
  | Some e => http_Error (json.Error e) http.StatusBadRequest
  | None =>
      Lock;;
      defer Unlock (
        kvMap_store (SetRequest_Key payload) (SetRequest_Value payload);;
        Fprintln (pretty http.StatusAccepted))
  end.

Section Encoder.

(** The JSON text of a Go string, quotes included, as [encoding/json]
    writes it. *)
Variable quote : string -> string.

(** [json.Marshal(response)]: the object with its one member. *)
Definition Marshal (response : GetResponse) : string :=
  "{" +:+ String "034" "value" +:+ String "034" ":"
  +:+ quote (GetResponse_Value response) +:+ "}".

(** [json.NewEncoder(w).Encode(response)]: the text of the response, then a
    newline, in one write. *)
Definition Encode (response : GetResponse) : M World unit :=
  Write (Marshal response +:+ newline).

Definition GetHandler : HandlerFunc World := fun r =>
  Header_Set "Content-Type" "application/json";;
  '(payload, err) ← decode Decode_GetRequest r;
  match err with
  | Some e => http_Error (json.Error e) http.StatusBadRequest
  | None =>
      Lock;;
      defer Unlock (
        '(value, ok) ← kvMap_load (GetRequest_Key payload);
        if negb ok then http_Error "Key not found" http.StatusNotFound
        else Encode {| GetResponse_Value := value |})
  end.

End Encoder.

Definition LivenessProbeHandler : HandlerFunc World := fun r =>
  log_Print ("Liveness probe called " +:+ http.URL_Path r);;
  WriteHeader http.StatusOK.

Definition ReadinessProbeHandler : HandlerFunc World := fun r =>
  log_Print ("Readiness probe called " +:+ http.URL_Path r);;
  WriteHeader http.StatusOK.

(** The two loops over [r.Header]: one line for each value of each name. *)
Fixpoint log_values {S : Type} (name : string) (values : list string) : M S unit :=
  match values with
  | [] => mret tt
  | value :: rest =>
      log_Print ("Header: " +:+ name +:+ "=" +:+ value);; log_values name rest
  end.

Fixpoint log_headers {S : Type} (header : list (string * list string)) : M S unit :=
  match header with
  | [] => mret tt
  | (name, values) :: rest => log_values name values;; log_headers rest
  end.

Definition MiddlewareLogRequest {S : Type} (next : HandlerFunc S) : HandlerFunc S :=
  fun r =>
    log_Print ("Request: " +:+ http.Method r +:+ " " +:+ http.URL_Path r
               +:+ " " +:+ http.RemoteAddr r);;
    log_headers (http.Header r);;
    next r.

(** ** The server: one store, four routes, the optional middleware *)

(** The store [server] creates: an empty map behind an unlocked mutex. *)
Definition NewStore : KeyValueStore := {| Mutex := false; kvMap := ∅ |}.

(** The pattern of the route table a request was matched to. *)
Inductive Endpoint : Type := healthz | readyz | get | set.

Definition path (e : Endpoint) : string :=
  match e with
  | healthz => "/healthz"
  | readyz => "/readyz"
  | get => "/get"
  | set => "/set"
  end.

Section Server.

Variable quote : string -> string.

Definition endpoints (e : Endpoint) : HandlerFunc World :=
  match e with
  | healthz => LivenessProbeHandler
  | readyz => ReadinessProbeHandler
  | get => GetHandler quote
  | set => SetHandler
  end.

(** The closure [handler] of [server]. *)
Definition handler (env : Config.ServerConfig) (h : HandlerFunc World)
  : HandlerFunc World :=
  if Config.EnableLoggingMiddleware env then MiddlewareLogRequest h else h.

(** One request served: the registered handler runs on the shared store and
    a response writer of its own. *)
Definition serve (env : Config.ServerConfig) (store : KeyValueStore)
    (e : Endpoint) (r : http.Request) : list Event * Outcome World unit :=
  handler env (endpoints e) r {| kv := store; w := httptest.NewRecorder |}.

(** Requests served one after the other; the store as the last one leaves
    it. *)
Fixpoint serve_all (env : Config.ServerConfig) (store : KeyValueStore)
    (requests : list (Endpoint * http.Request)) : KeyValueStore :=
  match requests with
  | [] => store
  | (e, r) :: rest =>
      serve_all env (kv (final_state (serve env store e r).2)) rest
  end.

End Server.

(** A handler called directly, as the tests do: on a store and a new
    recorder. *)
Definition call (h : HandlerFunc World) (store : KeyValueStore)
    (r : http.Request) : list Event * Outcome World unit :=
  h r {| kv := store; w := httptest.NewRecorder |}.

(** A request is a write of key [k] when it goes to [/set] and its body
    decodes, without error, to a payload with that key. *)
Definition writes_key (k : Key) (req : Endpoint * http.Request) : bool :=
  match req with
  | (set, r) =>
      match Decode_SetRequest (http.Body r) with
      | (payload, None) => String.eqb (SetRequest_Key payload) k
      | (_, Some _) => false
      end
  | _ => false
  end.

(** ** Reading a sequence of events *)

(** Each event other than the locking and unlocking themselves, with
    whether the mutex is held when it happens. *)
Fixpoint annotate (held : bool) (t : list Event) : list (Event * bool) :=
  match t with
  | [] => []
  | EvLock :: rest => annotate true rest
  | EvUnlock :: rest => annotate false rest
  | e :: rest => (e, held) :: annotate held rest
  end.

Definition is_store_access (e : Event) : bool :=
  match e with
  | EvMapStore _ _ | EvMapLoad _ _ _ => true
  | _ => false
  end.

Definition is_body_read (e : Event) : bool :=
  match e with
  | EvReadBody => true
  | _ => false
  end.

Definition is_response_write (e : Event) : bool :=
  match e with
  | EvWriteHeader _ | EvWrite _ => true
  | _ => false
  end.

Definition is_io (e : Event) : bool := is_body_read e || is_response_write e.

(** Every event of the kind [p] happens while the mutex is held, and:
    no event of the kind [p] happens while the mutex is held. *)
Definition all_under_lock (p : Event -> bool) (t : list Event) : bool :=
  forallb (fun eh : Event * bool => implb (p eh.1) eh.2) (annotate false t).

Definition none_under_lock (p : Event -> bool) (t : list Event) : bool :=
  forallb (fun eh : Event * bool => implb (p eh.1) (negb eh.2)) (annotate false t).

(** [p] holds of no event at all. *)
Definition never (p : Event -> bool) (t : list Event) : bool :=
  forallb (fun e => negb (p e)) t.

(** ** Sample inputs *)

(** Quoting of a string made of plain letters and digits. *)
Definition quote_plain (s : string) : string :=
  String "034" s +:+ String "034" "".

(** [httptest.NewRequest(http.MethodPost, target, body)] *)
Definition NewRequest (target : string) (body : json.Body) : http.Request :=
  {| http.Method := "POST"; http.URL_Path := target;
     http.RemoteAddr := "192.0.2.1:1234"; http.Header := [];
     http.Body := body |}.

(** Body [{"key":"a","value":"1"}]. *)
Definition set_a_1 : http.Request :=
  NewRequest "/set"
    (json.Document (json.Object [("key", json.String_ "a");
                                 ("value", json.String_ "1")])).

(** Body [{"key":"a","value":"2"}]. *)
Definition set_a_2 : http.Request :=
  NewRequest "/set"
    (json.Document (json.Object [("key", json.String_ "a");
                                 ("value", json.String_ "2")])).

(** Body ["value":"value"}], of which the decoder reads the string
    ["value"]. *)
Definition set_malformed : http.Request :=
  NewRequest "/set" (json.Document (json.String_ "value")).

(** Body [{}]. *)
Definition set_empty_object : http.Request :=
  NewRequest "/set" (json.Document (json.Object [])).




(** Body [{"key":"a"}]. *)
Definition get_a : http.Request :=
  NewRequest "/get" (json.Document (json.Object [("key", json.String_ "a")])).

(** Body [{"key":"missing"}]. *)
Definition get_missing : http.Request :=
  NewRequest "/get"
    (json.Document (json.Object [("key", json.String_ "missing")])).

(** Body [{"key":"b","value":"2"}]. *)
Definition set_b_2 : http.Request :=
  NewRequest "/set"
    (json.Document (json.Object [("key", json.String_ "b");
                                 ("value", json.String_ "2")])).

(** Body [{"key":"a","VALUE":5,"key":true}]. *)
Definition set_value_number : http.Request :=
  NewRequest "/set"
    (json.Document (json.Object [("key", json.String_ "a");
                                 ("VALUE", json.Number "5");
                                 ("key", json.Bool true)])).

(** Body [5] sent to [/get]. *)
Definition get_number : http.Request :=
  NewRequest "/get" (json.Document (json.Number "5")).

(** A store whose mutex another request holds. *)
Definition held_store : KeyValueStore := {| Mutex := true; kvMap := ∅ |}.

(** Five requests in a row. *)
Definition five_requests : list (Endpoint * http.Request) :=
  [(set, set_a_1); (get, get_a); (set, set_malformed); (healthz, get_a);
   (set, set_b_2)].

(** A request with two headers, one of them with two values. *)
Definition get_with_headers : http.Request :=
  {| http.Method := "POST"; http.URL_Path := "/get";
     http.RemoteAddr := "192.0.2.1:1234";
     http.Header := [("Accept", ["text/plain"; "application/json"]);
                     ("User-Agent", ["curl"])];
     http.Body := json.Document (json.Object [("key", json.String_ "a")]) |}.

Definition logging_on : Config.ServerConfig :=
  {| Config.ServiceName := "key-value-service-v1";
     Config.ServerAddress := "localhost:8080";
     Config.ShutdownTimeout := Config.Second * 10;
     Config.EnableLoggingMiddleware := true;
     Config.ServiceVersion := "" |}.

(** ** Notions used to state the properties *)

(** The lines the middleware is to log for a request: the request line, then
    one line for each value of each header. *)
Definition request_log (r : http.Request) : list Event :=
  EvLog ("Request: " +:+ http.Method r +:+ " " +:+ http.URL_Path r
         +:+ " " +:+ http.RemoteAddr r)
  :: flat_map (fun h : string * list string =>
                 map (fun value => EvLog ("Header: " +:+ h.1 +:+ "=" +:+ value)) h.2)
              (http.Header r).

(** A handler that counts, next to the state it works on, how many times it
    has been called. *)
Definition counted {S : Type} (next : HandlerFunc S) : HandlerFunc (S * nat) :=
  fun r sn =>
    match next r sn.1 with
    | (t, Returns a s') => (t, Returns a (s', Datatypes.S sn.2))
    | (t, Blocks s') => (t, Blocks (s', Datatypes.S sn.2))
    | (t, Throws msg s') => (t, Throws msg (s', Datatypes.S sn.2))
    end.

(** The string a JSON object gives for a field: that of the last member
    that is stored in the field and holds a string; none when the object
    omits the field (or only ever gives it as [null]). *)
Fixpoint given (field : string) (members : list (string * json.value))
  : option string :=
  match members with
  | [] => None
  | (name, item) :: rest =>
      match given field rest with
      | Some s => Some s
      | None =>
          if json.field_matches field name then
            match item with
            | json.String_ s => Some s
            | _ => None
            end
          else None
      end
  end.

(** The members of an object that are stored in one of the fields [key] and
    [value] hold a string or [null]; the other members hold anything. *)
Definition is_string_or_null (item : json.value) : bool :=
  match item with
  | json.String_ _ | json.Null => true
  | _ => false
  end.

Definition fields_are_strings (members : list (string * json.value)) : bool :=
  forallb (fun m : string * json.value =>
             if json.field_matches "key" m.1 || json.field_matches "value" m.1
             then is_string_or_null m.2 else true)
          members.

(** Whether [Decode] returned no error. *)
Definition is_nil (err : option json.error) : bool :=
  match err with
  | None => true
  | Some _ => false
  end.

Definition is_lock_event (e : Event) : bool :=
  match e with
  | EvLock | EvUnlock => true
  | _ => false
  end.

(** How a run of a handler uses the mutex, given whether the body of the
    request decoded.  The handler returns and leaves the mutex free; every
    access to the map happens while the mutex is held; the body is read
    while it is not.  When the body decoded, the map is accessed, the
    response is written while the mutex is still held, and the release of
    the mutex is the last thing to happen; the run is the read of the body,
    then the one taking of the mutex, then events among which the mutex is
    neither taken nor released and the body is not read, then the one
    release.  When it did not decode, the map is not accessed, the mutex is
    not held at any read or write, and it is never taken. *)
Definition lock_discipline (decoded : bool)
    (run : list Event * Outcome World unit) : Prop :=
  (exists s, run.2 = Returns tt s /\ Mutex (kv s) = false)
  /\ all_under_lock is_store_access run.1 = true
  /\ none_under_lock is_body_read run.1 = true
  /\ if decoded then
       never is_store_access run.1 = false
       /\ all_under_lock is_response_write run.1 = true
       /\ last run.1 = Some EvUnlock
       /\ exists critical,
            run.1 = (EvReadBody :: EvLock :: critical ++ [EvUnlock])%list
            /\ never is_lock_event critical = true
            /\ never is_body_read critical = true
     else
       never is_store_access run.1 = true
       /\ none_under_lock is_io run.1 = true
       /\ never is_lock_event run.1 = true.

(** The headers of the two content types the handlers set. *)
Definition text_plain : gmap string (list string) :=
  {[ "Content-Type" := ["text/plain"] ]}.

Definition application_json : gmap string (list string) :=
  {[ "Content-Type" := ["application/json"] ]}.

(** The headers [http.Error] leaves, given those set before. *)
Definition error_headers (h : gmap string (list string))
  : gmap string (list string) :=
  <["X-Content-Type-Options" := ["nosniff"]]>
    (<["Content-Type" := ["text/plain; charset=utf-8"]]>
       (delete "Content-Length" h)).

(** The response [http.Error] builds on a writer on which nothing was
    written yet. *)
Definition error_response (h : gmap string (list string)) (error : string)
    (code : Z) : httptest.ResponseRecorder :=
  {| httptest.Code := code;
     httptest.HeaderMap := error_headers h;
     httptest.Body := error +:+ newline;
     httptest.wroteHeader := true;
     httptest.snapHeader := Some (error_headers h) |}.

(** The text [Encode] writes for a value. *)
Definition encoded (quote : string -> string) (v : Value) : string :=
  Marshal quote {| GetResponse_Value := v |} +:+ newline.

(** The map after the requests, read off the requests alone: each [/set]
    request whose body decodes writes its payload, in the order served; no
    other request counts. *)
Definition applied_sets (requests : list (Endpoint * http.Request))
    (m : gmap string string) : gmap string string :=
  fold_left
    (fun (acc : gmap string string) (req : Endpoint * http.Request) =>
       match req with
       | (set, r) =>
           match Decode_SetRequest (http.Body r) with
           | (payload, None) =>
               <[SetRequest_Key payload := SetRequest_Value payload]> acc
           | (_, Some _) => acc
           end
       | _ => acc
       end)
    requests m.

(** A member that is stored in a field of [SetRequest]; a member whose
    value a string field accepts. *)
Definition is_field (m : string * json.value) : bool :=
  json.field_matches "key" m.1 || json.field_matches "value" m.1.

Definition key_members_are_strings (members : list (string * json.value)) : bool :=
  forallb (fun m : string * json.value =>
             if json.field_matches "key" m.1 then is_string_or_null m.2 else true)
          members.

(** The values of a header as they were when the status was fixed, which are
    the ones sent. *)
Definition sent_header (name : string) (rw : httptest.ResponseRecorder)
  : option (list string) :=
  h ← httptest.snapHeader rw; h !! name.





(** A configuration with the logging middleware switched on or off. *)
Definition with_logging (enabled : bool) (env : Config.ServerConfig)
  : Config.ServerConfig :=
  {| Config.ServiceName := Config.ServiceName env;
     Config.ServerAddress := Config.ServerAddress env;
     Config.ShutdownTimeout := Config.ShutdownTimeout env;
     Config.EnableLoggingMiddleware := enabled;
     Config.ServiceVersion := Config.ServiceVersion env |}.

(** The configuration [main] builds when nothing makes it panic. *)
Definition resolved (version : string) (environ : gmap string string)
    (flags : Config.Flags) : Config.ServerConfig :=
  {| Config.ServiceName := "key-value-service-v1";
     Config.ServerAddress :=
       default (if String.eqb (Config.Getenv environ "SERVER_ADDRESS") ""
                then "localhost:8080"
                else Config.Getenv environ "SERVER_ADDRESS")
               (Config.flag_address flags);
     Config.ShutdownTimeout :=
       default (Config.Second * 10) (Config.flag_shutdown_timeout flags);
     Config.EnableLoggingMiddleware :=
       default false (Config.flag_enable_logging_middleware flags);
     Config.ServiceVersion := version |}.

(** * Properties *)

(** ** Configuration *)

Section ConfigFacts.

Import Config.

Lemma Getenv_unset environ name : environ !! name = None -> Getenv environ name = "".
Proof. intros H. unfold Getenv. by rewrite H. Qed.

Lemma Getenv_set environ name s : environ !! name = Some s -> Getenv environ name = s.
Proof. intros H. unfold Getenv. by rewrite H. Qed.

Lemma useEnv_nonempty_string s d :
  s <> "" -> useEnvOrDefaultIfNotSet (OfString s) d = Ok (OfString s).
Proof. intros Hs. destruct s; [done | reflexivity]. Qed.

(** The address setting never panics: both the variable and the default are
    strings. *)
Lemma address_default_ok environ :
  address_default environ =
    Ok (if (String.length (Getenv environ "SERVER_ADDRESS") =? 0)%nat
        then "localhost:8080" else Getenv environ "SERVER_ADDRESS").
Proof.
  unfold address_default, useEnvOrDefaultIfNotSet.
  by destruct (String.length (Getenv environ "SERVER_ADDRESS") =? 0)%nat.
Qed.

Lemma shutdownTimeout_default_unset environ :
  Getenv environ "SHUTDOWN_TIMEOUT" = "" ->
  shutdownTimeout_default environ = Ok (Second * 10).
Proof. intros H. unfold shutdownTimeout_default. by rewrite H. Qed.

Lemma shutdownTimeout_default_set environ s :
  environ !! "SHUTDOWN_TIMEOUT" = Some s -> s <> "" ->
  shutdownTimeout_default environ =
    Panic "interface conversion: interface {} is string, not time.Duration".
Proof.
  intros H Hs. unfold shutdownTimeout_default.
  rewrite (Getenv_set _ _ _ H), (useEnv_nonempty_string _ _ Hs). reflexivity.
Qed.

Lemma enableLoggingMiddleware_default_unset environ :
  Getenv environ "ENABLE_LOGGING_MIDDLEWARE" = "" ->
  enableLoggingMiddleware_default environ = Ok false.
Proof. intros H. unfold enableLoggingMiddleware_default. by rewrite H. Qed.

(** C2, on the code: when [SHUTDOWN_TIMEOUT] is set to any text that is not
    empty (so to any duration value, such as [5s]), [main] does not resolve
    the shutdown timeout to that value.  The helper hands back the string
    of the environment as it is, and the type assertion to [time.Duration]
    that [main] applies to it panics, whatever flags are given. *)
Theorem main_panics_when_SHUTDOWN_TIMEOUT_is_set
    (version : string) (environ : gmap string string) (flags : Flags) (s : string) :
  environ !! "SHUTDOWN_TIMEOUT" = Some s ->
  s <> "" ->
  main version environ flags =
    Panic "interface conversion: interface {} is string, not time.Duration".
Proof.
  intros H Hs. unfold main.
  rewrite address_default_ok, (shutdownTimeout_default_set _ _ H Hs).
  reflexivity.
Qed.

Lemma main_panics_when_SHUTDOWN_TIMEOUT_is_5s :
  ({[ "SHUTDOWN_TIMEOUT" := "5s" ]} : gmap string string) !! "SHUTDOWN_TIMEOUT"
    = Some "5s"
  /\ "5s" <> ""
  /\ main "1.5.0" {[ "SHUTDOWN_TIMEOUT" := "5s" ]} no_flags =
       Panic "interface conversion: interface {} is string, not time.Duration".
Proof.
  split; [reflexivity |]. split; [discriminate |].
  apply (main_panics_when_SHUTDOWN_TIMEOUT_is_set
           "1.5.0" {[ "SHUTDOWN_TIMEOUT" := "5s" ]} no_flags "5s");
    [reflexivity | discriminate].
Defined.

(** C7: an empty string from the environment gives way to the default,
    whatever the default is; a zero duration gives way to a default
    duration; and when [SHUTDOWN_TIMEOUT] is not set and the shutdown-timeout
    flag is not given, the timeout [main] resolves is the default of 10
    seconds: the default of the flag is 10 seconds, every configuration
    [main] returns has it, and [main] does return one when
    [ENABLE_LOGGING_MIDDLEWARE] is not set or empty. *)
Theorem empty_or_zero_environment_value_gives_default
    (defaultValue : any) (d : Z)
    (version : string) (environ : gmap string string) (flags : Flags) :
  environ !! "SHUTDOWN_TIMEOUT" = None ->
  flag_shutdown_timeout flags = None ->
  useEnvOrDefaultIfNotSet (OfString "") defaultValue = Ok defaultValue
  /\ useEnvOrDefaultIfNotSet (OfDuration 0) (OfDuration d) = Ok (OfDuration d)
  /\ shutdownTimeout_default environ = Ok (Second * 10)
  /\ (forall cfg, main version environ flags = Ok cfg ->
        ShutdownTimeout cfg = 10 * Second)
  /\ (Getenv environ "ENABLE_LOGGING_MIDDLEWARE" = "" ->
      exists cfg, main version environ flags = Ok cfg
                  /\ ShutdownTimeout cfg = 10 * Second).
Proof.
  intros Henv Hflag.
  pose proof (shutdownTimeout_default_unset environ
                (Getenv_unset _ _ Henv)) as Hdef.
  split; [reflexivity |]. split; [reflexivity |]. split; [exact Hdef |].
  split.
  - intros cfg. unfold main.
    rewrite address_default_ok, Hdef. simpl.
    destruct (enableLoggingMiddleware_default environ); simpl; [| discriminate].
    intros [= <-]. simpl. by rewrite Hflag.
  - intros Hlog. unfold main.
    rewrite address_default_ok, Hdef,
      (enableLoggingMiddleware_default_unset _ Hlog). simpl.
    eexists. split; [reflexivity |]. simpl. by rewrite Hflag.
Qed.

Lemma default_timeout_with_empty_environment :
  (∅ : gmap string string) !! "SHUTDOWN_TIMEOUT" = None
  /\ flag_shutdown_timeout no_flags = None
  /\ shutdownTimeout_default ∅ = Ok 10000000000
  /\ exists cfg, main "1.5.0" ∅ no_flags = Ok cfg
                 /\ ShutdownTimeout cfg = 10000000000.
Proof.
  destruct (empty_or_zero_environment_value_gives_default
              (OfDuration (Second * 10)) (Second * 10) "1.5.0" ∅ no_flags)
    as (_ & _ & Hdef & _ & Hmain); [reflexivity | reflexivity |].
  split; [reflexivity |]. split; [reflexivity |]. split; [exact Hdef |].
  apply Hmain. reflexivity.
Defined.

End ConfigFacts.

(** ** Runs of the handlers *)

#[local] Ltac run_handler :=
  unfold call, defer, mbind, M_bind, decode, emit, mret, M_ret; simpl.

Lemma SetHandler_ok r store payload :
  Mutex store = false ->
  Decode_SetRequest (http.Body r) = (payload, None) ->
  call SetHandler store r =
    ([EvReadBody; EvLock;
      EvMapStore (SetRequest_Key payload) (SetRequest_Value payload);
      EvWriteHeader 200; EvWrite ("202" +:+ newline); EvUnlock],
     Returns tt
       {| kv := {| Mutex := false;
                   kvMap := <[SetRequest_Key payload := SetRequest_Value payload]>
                              (kvMap store) |};
          w := {| httptest.Code := 200;
                  httptest.HeaderMap := text_plain;
                  httptest.Body := "202" +:+ newline;
                  httptest.wroteHeader := true;
                  httptest.snapHeader := Some text_plain |} |}).
Proof.
  intros Hm Hd. unfold SetHandler. run_handler.
  rewrite Hd. simpl. unfold Lock. simpl. rewrite Hm. reflexivity.
Qed.

Lemma SetHandler_err r store payload e :
  Decode_SetRequest (http.Body r) = (payload, Some e) ->
  call SetHandler store r =
    ([EvReadBody; EvWriteHeader 400; EvWrite (json.Error e +:+ newline)],
     Returns tt
       {| kv := store;
          w := error_response text_plain (json.Error e) 400 |}).
Proof.
  intros Hd. unfold SetHandler. run_handler.
  rewrite Hd. reflexivity.
Qed.

Section GetRuns.

Variable quote : string -> string.

Lemma GetHandler_found r store payload v :
  Mutex store = false ->
  Decode_GetRequest (http.Body r) = (payload, None) ->
  kvMap store !! GetRequest_Key payload = Some v ->
  call (GetHandler quote) store r =
    ([EvReadBody; EvLock; EvMapLoad (GetRequest_Key payload) v true;
      EvWriteHeader 200; EvWrite (encoded quote v); EvUnlock],
     Returns tt
       {| kv := {| Mutex := false; kvMap := kvMap store |};
          w := {| httptest.Code := 200;
                  httptest.HeaderMap := application_json;
                  httptest.Body := encoded quote v;
                  httptest.wroteHeader := true;
                  httptest.snapHeader := Some application_json |} |}).
Proof.
  intros Hm Hd Hk. unfold GetHandler. run_handler.
  rewrite Hd. simpl. unfold Lock. simpl. rewrite Hm.
  unfold kvMap_load, lookup_ok. cbn [kv kvMap]. rewrite Hk. reflexivity.
Qed.

Lemma GetHandler_missing r store payload :
  Mutex store = false ->
  Decode_GetRequest (http.Body r) = (payload, None) ->
  kvMap store !! GetRequest_Key payload = None ->
  call (GetHandler quote) store r =
    ([EvReadBody; EvLock; EvMapLoad (GetRequest_Key payload) "" false;
      EvWriteHeader 404; EvWrite ("Key not found" +:+ newline); EvUnlock],
     Returns tt
       {| kv := {| Mutex := false; kvMap := kvMap store |};
          w := error_response application_json "Key not found" 404 |}).
Proof.
  intros Hm Hd Hk. unfold GetHandler. run_handler.
  rewrite Hd. simpl. unfold Lock. simpl. rewrite Hm.
  unfold kvMap_load, lookup_ok. cbn [kv kvMap]. rewrite Hk. reflexivity.
Qed.

Lemma GetHandler_err r store payload e :
  Decode_GetRequest (http.Body r) = (payload, Some e) ->
  call (GetHandler quote) store r =
    ([EvReadBody; EvWriteHeader 400; EvWrite (json.Error e +:+ newline)],
     Returns tt
       {| kv := store;
          w := error_response application_json (json.Error e) 400 |}).
Proof.
  intros Hd. unfold GetHandler. run_handler.
  rewrite Hd. reflexivity.
Qed.

End GetRuns.

(** Every key and value can be sent: the object with the two members
    decodes to them, and the object with the key decodes to it. *)
Lemma Decode_SetRequest_key_value (k : Key) (v : Value) :
  Decode_SetRequest
    (json.Document (json.Object [("key", json.String_ k);
                                 ("value", json.String_ v)]))
  = ({| SetRequest_Key := k; SetRequest_Value := v |}, None).
Proof. reflexivity. Qed.

Lemma Decode_GetRequest_key (k : Key) :
  Decode_GetRequest (json.Document (json.Object [("key", json.String_ k)]))
  = ({| GetRequest_Key := k |}, None).
Proof. reflexivity. Qed.

Lemma lookup_ok_Some (m : gmap string string) k v :
  m !! k = Some v -> lookup_ok m k = (v, true).
Proof. unfold lookup_ok. by intros ->. Qed.

Lemma lookup_ok_None (m : gmap string string) k :
  m !! k = None -> lookup_ok m k = ("", false).
Proof. unfold lookup_ok. by intros ->. Qed.

(** ** The [/set] handler *)

(** C1, as the code has it: for every [/set] request whose body decodes, on
    a store whose mutex is free, the handler returns; the status of the
    response is 200 (the handler never calls [WriteHeader], so the first
    write fixes 200), its body is the text [202] of the accepted status code
    followed by a newline, and the map holds the value of the payload under
    its key. *)
Theorem SetHandler_decoded_request
    (r : http.Request) (store : KeyValueStore) (payload : SetRequest) :
  Mutex store = false ->
  Decode_SetRequest (http.Body r) = (payload, None) ->
  exists t s,
    call SetHandler store r = (t, Returns tt s)
    /\ httptest.Code (w s) = http.StatusOK
    /\ httptest.Body (w s) = pretty http.StatusAccepted +:+ newline
    /\ kvMap (kv s) =
         <[SetRequest_Key payload := SetRequest_Value payload]> (kvMap store)
    /\ Mutex (kv s) = false.
Proof.
  intros Hm Hd. rewrite (SetHandler_ok _ _ _ Hm Hd).
  eexists _, _. split; [reflexivity |]. by repeat split.
Qed.

Lemma SetHandler_decoded_request_a_1 :
  exists t s,
    call SetHandler NewStore set_a_1 = (t, Returns tt s)
    /\ httptest.Code (w s) = 200
    /\ httptest.Body (w s) = "202" +:+ newline
    /\ kvMap (kv s) = <["a" := "1"]> ∅
    /\ Mutex (kv s) = false.
Proof.
  apply (SetHandler_decoded_request set_a_1 NewStore
           {| SetRequest_Key := "a"; SetRequest_Value := "1" |});
    reflexivity.
Defined.

(** C1 as stated fails: the request of scenario 1 decodes, and the status of
    the response is 200, not the accepted status 202. *)
Lemma SetHandler_status_is_not_accepted :
  Decode_SetRequest (http.Body set_a_1)
    = ({| SetRequest_Key := "a"; SetRequest_Value := "1" |}, None)
  /\ exists t s,
       call SetHandler NewStore set_a_1 = (t, Returns tt s)
       /\ httptest.Code (w s) = 200
       /\ httptest.Code (w s) <> http.StatusAccepted.
Proof.
  split; [reflexivity |].
  eexists _, _. split; [reflexivity |]. split; [reflexivity |]. discriminate.
Qed.

(** C4: for every [/set] request whose body fails to decode, whatever the
    state of the store, the handler returns with status 400 and a body that
    is the text of the decode error on a line; the store is the one it was
    (the same map, the mutex never taken) and no event reaches the store. *)
Theorem SetHandler_decode_failure
    (r : http.Request) (store : KeyValueStore) (payload : SetRequest)
    (e : json.error) :
  Decode_SetRequest (http.Body r) = (payload, Some e) ->
  exists t s,
    call SetHandler store r = (t, Returns tt s)
    /\ httptest.Code (w s) = http.StatusBadRequest
    /\ httptest.Body (w s) = json.Error e +:+ newline
    /\ kv s = store
    /\ t = [EvReadBody; EvWriteHeader http.StatusBadRequest;
            EvWrite (json.Error e +:+ newline)].
Proof.
  intros Hd. rewrite (SetHandler_err _ _ _ _ Hd).
  eexists _, _. split; [reflexivity |]. by repeat split.
Qed.

Lemma SetHandler_decode_failure_malformed :
  exists t s,
    call SetHandler NewStore set_malformed = (t, Returns tt s)
    /\ httptest.Code (w s) = 400
    /\ httptest.Body (w s) =
         "json: cannot unmarshal string into Go value of type main.SetRequest"
         +:+ newline
    /\ kv s = NewStore
    /\ t = [EvReadBody; EvWriteHeader 400;
            EvWrite ("json: cannot unmarshal string into Go value of type main.SetRequest"
                     +:+ newline)].
Proof.
  apply (SetHandler_decode_failure set_malformed NewStore
           {| SetRequest_Key := ""; SetRequest_Value := "" |}
           (json.TypeError
              {| json.Value := "string"; json.Type_ := "main.SetRequest";
                 json.Struct := ""; json.Field := "" |})).
  reflexivity.
Defined.

(** ** The logging middleware *)

Section Middleware.

Context {S : Type}.

Lemma log_values_run (name : string) (values : list string) (s : S) :
  log_values name values s =
    (map (fun value => EvLog ("Header: " +:+ name +:+ "=" +:+ value)) values,
     Returns tt s).
Proof.
  induction values as [| value rest IH]; [reflexivity |].
  cbn [log_values map]. unfold mbind, M_bind, log_Print, emit.
  rewrite IH. reflexivity.
Qed.

Lemma log_headers_run (header : list (string * list string)) (s : S) :
  log_headers header s =
    (flat_map (fun h : string * list string =>
                 map (fun value => EvLog ("Header: " +:+ h.1 +:+ "=" +:+ value)) h.2)
              header,
     Returns tt s).
Proof.
  induction header as [| [name values] rest IH]; [reflexivity |].
  cbn [log_headers flat_map]. unfold mbind, M_bind.
  rewrite log_values_run, IH. reflexivity.
Qed.

Lemma MiddlewareLogRequest_run (next : HandlerFunc S) (r : http.Request) (s : S) :
  MiddlewareLogRequest next r s =
    ((request_log r ++ (next r s).1)%list, (next r s).2).
Proof.
  unfold MiddlewareLogRequest, mbind, M_bind, log_Print, emit.
  rewrite log_headers_run. unfold request_log.
  destruct (next r s) as [t o]. reflexivity.
Qed.

Lemma request_log_only_logs (r : http.Request) :
  Forall (fun e => exists line, e = EvLog line) (request_log r).
Proof.
  unfold request_log. constructor; [by eexists |].
  induction (http.Header r) as [| [name values] rest IH]; [constructor |].
  cbn [flat_map]. apply Forall_app. split; [| exact IH].
  simpl. induction values; constructor; [by eexists | done].
Qed.

Lemma request_log_length (r : http.Request) :
  length (request_log r) =
    Datatypes.S (list_sum (map (fun h : string * list string => length h.2)
                               (http.Header r))).
Proof.
  unfold request_log. cbn [length]. f_equal.
  induction (http.Header r) as [| [name values] rest IH]; [reflexivity |].
  cbn [flat_map map list_sum]. rewrite length_app, length_map, IH. reflexivity.
Qed.

End Middleware.

(** C8: for every state type, every handler [next] over it, every request
    and every state, running the middleware gives the outcome of [next] run
    directly on the same request and the same state (so the same response
    and the same store, also when [next] does not return); the events are
    the log lines of the request, one for the request and one for each
    header value, followed by the events of that one run of [next]; and a
    handler that counts its calls is called once. *)
Theorem MiddlewareLogRequest_delegates_once
    (S : Type) (next : HandlerFunc S) (r : http.Request) (s : S) (n : nat) :
  (MiddlewareLogRequest next r s).2 = (next r s).2
  /\ (MiddlewareLogRequest next r s).1 = (request_log r ++ (next r s).1)%list
  /\ Forall (fun e => exists line, e = EvLog line) (request_log r)
  /\ length (request_log r) =
       Datatypes.S (list_sum (map (fun h : string * list string => length h.2)
                                  (http.Header r)))
  /\ (final_state (MiddlewareLogRequest (counted next) r (s, n)).2).2
       = Datatypes.S n.
Proof.
  rewrite !MiddlewareLogRequest_run. cbn [fst snd].
  split; [reflexivity |]. split; [reflexivity |].
  split; [apply request_log_only_logs |].
  split; [apply request_log_length |].
  unfold counted. cbn [fst snd].
  destruct (next r s) as [t [a s' | s' | msg s']]; reflexivity.
Qed.

(** With the middleware switched on, a request to [/get] with three header
    values: four lines are logged, then the handler runs as it does alone. *)
Example MiddlewareLogRequest_get_with_headers :
  (serve quote_plain logging_on NewStore get get_with_headers).1 =
    [EvLog "Request: POST /get 192.0.2.1:1234";
     EvLog "Header: Accept=text/plain";
     EvLog "Header: Accept=application/json";
     EvLog "Header: User-Agent=curl";
     EvReadBody; EvLock; EvMapLoad "a" "" false;
     EvWriteHeader 404; EvWrite ("Key not found" +:+ newline); EvUnlock]
  /\ (serve quote_plain logging_on NewStore get get_with_headers).2 =
       (call (GetHandler quote_plain) NewStore get_with_headers).2.
Proof. split; reflexivity. Qed.

(** ** Store operations through the handlers *)

Lemma serve_outcome quote env store e r :
  (serve quote env store e r).2 = (call (endpoints quote e) store r).2.
Proof.
  unfold serve, handler, call.
  destruct (Config.EnableLoggingMiddleware env); [| reflexivity].
  by rewrite MiddlewareLogRequest_run.
Qed.

(** What one served request does to the store: the mutex is free again, and
    the map is the one before, or the one before with the payload of a
    decoded [/set] request written into it. *)
Lemma serve_store quote env store e r :
  Mutex store = false ->
  let store' := kv (final_state (serve quote env store e r).2) in
  Mutex store' = false
  /\ (kvMap store' = kvMap store
      \/ exists payload,
           e = set
           /\ Decode_SetRequest (http.Body r) = (payload, None)
           /\ kvMap store' =
                <[SetRequest_Key payload := SetRequest_Value payload]>
                  (kvMap store)).
Proof.
  intros Hm. cbv zeta. rewrite serve_outcome.
  destruct e; cbn [endpoints].
  - split; [exact Hm | by left].
  - split; [exact Hm | by left].
  - destruct (Decode_GetRequest (http.Body r)) as [payload [err |]] eqn:Hd.
    + rewrite (GetHandler_err _ _ _ _ _ Hd). split; [exact Hm | by left].
    + destruct (kvMap store !! GetRequest_Key payload) as [v |] eqn:Hk.
      * rewrite (GetHandler_found _ _ _ _ _ Hm Hd Hk). split; [done | by left].
      * rewrite (GetHandler_missing _ _ _ _ Hm Hd Hk). split; [done | by left].
  - destruct (Decode_SetRequest (http.Body r)) as [payload [err |]] eqn:Hd.
    + rewrite (SetHandler_err _ _ _ _ Hd). split; [exact Hm | by left].
    + rewrite (SetHandler_ok _ _ _ Hm Hd). split; [done |].
      right. by exists payload.
Qed.

Lemma serve_all_unwritten quote env k requests : forall store,
  Mutex store = false ->
  kvMap store !! k = None ->
  forallb (fun req => negb (writes_key k req)) requests = true ->
  Mutex (serve_all quote env store requests) = false
  /\ kvMap (serve_all quote env store requests) !! k = None.
Proof.
  induction requests as [| [e r] rest IH]; intros store Hm Hk Hall.
  - by split.
  - cbn [forallb] in Hall. apply andb_prop in Hall as [Hreq Hrest].
    cbn [serve_all].
    destruct (serve_store quote env store e r Hm) as [Hm' Hmap].
    apply IH; [exact Hm' | | exact Hrest].
    destruct Hmap as [-> | (payload & -> & Hd & ->)]; [exact Hk |].
    unfold writes_key in Hreq. rewrite Hd in Hreq.
    apply negb_true_iff, String.eqb_neq in Hreq.
    by rewrite lookup_insert_ne.
Qed.

Section StoreProperties.

Variable quote : string -> string.

Lemma store_then_load (k : Key) (v : Value) (s : World) :
  (kvMap_store k v;; kvMap_load k) s =
    ([EvMapStore k v; EvMapLoad k v true],
     Returns (v, true)
       {| kv := {| Mutex := Mutex (kv s); kvMap := <[k := v]> (kvMap (kv s)) |};
          w := w s |}).
Proof.
  unfold mbind, M_bind, kvMap_store, kvMap_load. cbn [kv kvMap].
  by rewrite (lookup_ok_Some _ k v (lookup_insert_eq _ _ _)).
Qed.

(** C3: the assignment of [SetHandler] followed by the lookup of
    [GetHandler] on the same key gives the value and [true]; and through the
    handlers: after a [/set] request that decodes to [k] and [v], a [/get]
    request that decodes to [k] finds [(v, true)] in the map and answers
    with status 200 and the encoding of [v]. *)
Theorem Put_then_Get
    (store : KeyValueStore) (r_set r_get : http.Request) (k : Key) (v : Value) :
  Mutex store = false ->
  Decode_SetRequest (http.Body r_set)
    = ({| SetRequest_Key := k; SetRequest_Value := v |}, None) ->
  Decode_GetRequest (http.Body r_get) = ({| GetRequest_Key := k |}, None) ->
  (forall s, exists t s',
     (kvMap_store k v;; kvMap_load k) s = (t, Returns (v, true) s'))
  /\ let store' := kv (final_state (call SetHandler store r_set).2) in
     lookup_ok (kvMap store') k = (v, true)
     /\ exists t s,
          call (GetHandler quote) store' r_get = (t, Returns tt s)
          /\ In (EvMapLoad k v true) t
          /\ httptest.Code (w s) = http.StatusOK
          /\ httptest.Body (w s) = encoded quote v.
Proof.
  intros Hm Hset Hget. split.
  - intros s. rewrite store_then_load. by eexists _, _.
  - rewrite (SetHandler_ok _ _ _ Hm Hset). cbn [snd final_state kv kvMap].
    cbn [SetRequest_Key SetRequest_Value].
    assert (<[k := v]> (kvMap store) !! k = Some v) as Hk
      by apply lookup_insert_eq.
    split; [by apply lookup_ok_Some |].
    erewrite GetHandler_found; [| reflexivity | exact Hget | exact Hk].
    eexists _, _. split; [reflexivity |].
    split; [cbn; tauto |]. by split.
Qed.

End StoreProperties.

Lemma Put_then_Get_a_1 :
  lookup_ok (kvMap (kv (final_state (call SetHandler NewStore set_a_1).2))) "a"
    = ("1", true)
  /\ exists t s,
       call (GetHandler quote_plain)
            (kv (final_state (call SetHandler NewStore set_a_1).2)) get_a
         = (t, Returns tt s)
       /\ In (EvMapLoad "a" "1" true) t
       /\ httptest.Code (w s) = 200
       /\ httptest.Body (w s) = encoded quote_plain "1".
Proof.
  apply (Put_then_Get quote_plain NewStore set_a_1 get_a "a" "1");
    reflexivity.
Defined.

Section Overwrite.

Variable quote : string -> string.

(** C6: two assignments to the same key followed by the lookup give the
    second value and [true]; and through the handlers: after two [/set]
    requests that decode to [k] with [v1] and then to [k] with [v2], the map
    is the one before with [v2] under [k], and a [/get] request for [k]
    finds [(v2, true)] and answers with status 200 and the encoding of
    [v2]. *)
Theorem last_Put_wins
    (store : KeyValueStore) (r1 r2 r_get : http.Request)
    (k : Key) (v1 v2 : Value) :
  Mutex store = false ->
  Decode_SetRequest (http.Body r1)
    = ({| SetRequest_Key := k; SetRequest_Value := v1 |}, None) ->
  Decode_SetRequest (http.Body r2)
    = ({| SetRequest_Key := k; SetRequest_Value := v2 |}, None) ->
  Decode_GetRequest (http.Body r_get) = ({| GetRequest_Key := k |}, None) ->
  (forall s, exists t s',
     (kvMap_store k v1;; kvMap_store k v2;; kvMap_load k) s
       = (t, Returns (v2, true) s'))
  /\ let store1 := kv (final_state (call SetHandler store r1).2) in
     let store2 := kv (final_state (call SetHandler store1 r2).2) in
     lookup_ok (kvMap store2) k = (v2, true)
     /\ kvMap store2 = <[k := v2]> (kvMap store)
     /\ exists t s,
          call (GetHandler quote) store2 r_get = (t, Returns tt s)
          /\ In (EvMapLoad k v2 true) t
          /\ httptest.Code (w s) = http.StatusOK
          /\ httptest.Body (w s) = encoded quote v2.
Proof.
  intros Hm H1 H2 Hget. split.
  - intros s. unfold mbind, M_bind, kvMap_store, kvMap_load. cbn [kv kvMap].
    rewrite (lookup_ok_Some _ k v2 (lookup_insert_eq _ _ _)).
    by eexists _, _.
  - rewrite (SetHandler_ok _ _ _ Hm H1). cbn [snd final_state kv].
    erewrite SetHandler_ok; [| reflexivity | exact H2].
    cbn [snd final_state kv kvMap SetRequest_Key SetRequest_Value].
    rewrite insert_insert_eq.
    assert (<[k := v2]> (kvMap store) !! k = Some v2) as Hk
      by apply lookup_insert_eq.
    split; [by apply lookup_ok_Some |]. split; [reflexivity |].
    erewrite GetHandler_found; [| reflexivity | exact Hget | exact Hk].
    eexists _, _. split; [reflexivity |].
    split; [cbn; tauto |]. by split.
Qed.

End Overwrite.

Lemma last_Put_wins_a_1_2 :
  let store1 := kv (final_state (call SetHandler NewStore set_a_1).2) in
  let store2 := kv (final_state (call SetHandler store1 set_a_2).2) in
  lookup_ok (kvMap store2) "a" = ("2", true)
  /\ kvMap store2 = <["a" := "2"]> ∅
  /\ exists t s,
       call (GetHandler quote_plain) store2 get_a = (t, Returns tt s)
       /\ In (EvMapLoad "a" "2" true) t
       /\ httptest.Code (w s) = 200
       /\ httptest.Body (w s) = encoded quote_plain "2".
Proof.
  apply (last_Put_wins quote_plain NewStore set_a_1 set_a_2 get_a "a" "1" "2");
    reflexivity.
Defined.

(** ** The [/get] handler *)

Section Get.

Variable quote : string -> string.

(** C5: take a [/get] request that decodes to the key [k].  On the store
    the server created, after any requests served among which no [/set]
    request decoded to [k], the lookup gives [false] and the handler answers
    with status 404 and the line [Key not found]; so it does on any store
    whose map has no [k].  On a store whose map has [v] under [k], the
    lookup gives [(v, true)] and the handler answers with status 200 and the
    encoding of [v]. *)
Theorem GetHandler_absent_or_present
    (env : Config.ServerConfig) (requests : list (Endpoint * http.Request))
    (store : KeyValueStore) (r : http.Request) (k : Key) :
  Mutex store = false ->
  Decode_GetRequest (http.Body r) = ({| GetRequest_Key := k |}, None) ->
  (forallb (fun req => negb (writes_key k req)) requests = true ->
   let served := serve_all quote env NewStore requests in
   lookup_ok (kvMap served) k = ("", false)
   /\ exists t s,
        call (GetHandler quote) served r = (t, Returns tt s)
        /\ httptest.Code (w s) = http.StatusNotFound
        /\ httptest.Body (w s) = "Key not found" +:+ newline)
  /\ (kvMap store !! k = None ->
      lookup_ok (kvMap store) k = ("", false)
      /\ exists t s,
           call (GetHandler quote) store r = (t, Returns tt s)
           /\ httptest.Code (w s) = http.StatusNotFound
           /\ httptest.Body (w s) = "Key not found" +:+ newline)
  /\ (forall v, kvMap store !! k = Some v ->
      lookup_ok (kvMap store) k = (v, true)
      /\ exists t s,
           call (GetHandler quote) store r = (t, Returns tt s)
           /\ httptest.Code (w s) = http.StatusOK
           /\ httptest.Body (w s) = encoded quote v).
Proof.
  intros Hm Hd.
  assert (forall st, Mutex st = false -> kvMap st !! k = None ->
            lookup_ok (kvMap st) k = ("", false)
            /\ exists t s,
                 call (GetHandler quote) st r = (t, Returns tt s)
                 /\ httptest.Code (w s) = http.StatusNotFound
                 /\ httptest.Body (w s) = "Key not found" +:+ newline)
    as Habsent.
  { intros st Hst Hk. split; [by apply lookup_ok_None |].
    rewrite (GetHandler_missing quote r st _ Hst Hd Hk).
    eexists _, _. by split. }
  split; [| split].
  - intros Hall served.
    destruct (serve_all_unwritten quote env k requests NewStore)
      as [Hfree Hnone]; [reflexivity | reflexivity | exact Hall |].
    by apply Habsent.
  - by apply Habsent.
  - intros v Hk. split; [by apply lookup_ok_Some |].
    rewrite (GetHandler_found quote r store _ v Hm Hd Hk).
    eexists _, _. by split.
Qed.

End Get.

Lemma GetHandler_absent_or_present_scenarios :
  (let served :=
     serve_all quote_plain logging_on NewStore
       [(set, set_a_1); (set, set_malformed); (get, get_a); (healthz, get_a)] in
   lookup_ok (kvMap served) "missing" = ("", false)
   /\ exists t s,
        call (GetHandler quote_plain) served get_missing = (t, Returns tt s)
        /\ httptest.Code (w s) = 404
        /\ httptest.Body (w s) = "Key not found" +:+ newline)
  /\ lookup_ok (kvMap NewStore) "missing" = ("", false).
Proof.
  destruct (GetHandler_absent_or_present quote_plain logging_on
              [(set, set_a_1); (set, set_malformed); (get, get_a);
               (healthz, get_a)]
              NewStore get_missing "missing")
    as (Hserved & Hnone & _); [reflexivity | reflexivity |].
  split; [apply Hserved; reflexivity | apply Hnone; reflexivity].
Defined.

(** Scenario 1: after [{"key":"a","value":"1"}] is set, the request for [a]
    is answered with status 200 and the encoded value. *)
Example GetHandler_present_a :
  exists t s,
    call (GetHandler quote_plain)
         (serve_all quote_plain logging_on NewStore [(set, set_a_1)]) get_a
      = (t, Returns tt s)
    /\ httptest.Code (w s) = 200
    /\ httptest.Body (w s)
         = "{" +:+ quote_plain "value" +:+ ":" +:+ quote_plain "1" +:+ "}"
           +:+ newline.
Proof. eexists _, _. by repeat split. Qed.

(** ** The mutex *)

Section Mutex.

Variable quote : string -> string.

Lemma SetHandler_lock_discipline store r :
  Mutex store = false ->
  lock_discipline (is_nil (Decode_SetRequest (http.Body r)).2)
                  (call SetHandler store r).
Proof.
  intros Hm.
  destruct (Decode_SetRequest (http.Body r)) as [payload [err |]] eqn:Hd.
  - rewrite (SetHandler_err _ _ _ _ Hd).
    split; [by exists {| kv := store; w := error_response text_plain (json.Error err) 400 |} |].
    by repeat split.
  - rewrite (SetHandler_ok _ _ _ Hm Hd).
    split; [by eexists |]. do 5 (split; [done |]).
    eexists [_; _; _]. by repeat split.
Qed.

Lemma GetHandler_lock_discipline store r :
  Mutex store = false ->
  lock_discipline (is_nil (Decode_GetRequest (http.Body r)).2)
                  (call (GetHandler quote) store r).
Proof.
  intros Hm.
  destruct (Decode_GetRequest (http.Body r)) as [payload [err |]] eqn:Hd.
  - rewrite (GetHandler_err _ _ _ _ _ Hd).
    split; [by eexists |]. by repeat split.
  - destruct (kvMap store !! GetRequest_Key payload) as [v |] eqn:Hk.
    + rewrite (GetHandler_found _ _ _ _ _ Hm Hd Hk).
      split; [by eexists |]. do 5 (split; [done |]).
      eexists [_; _; _]. by repeat split.
    + rewrite (GetHandler_missing _ _ _ _ Hm Hd Hk).
      split; [by eexists |]. do 5 (split; [done |]).
      eexists [_; _; _]. by repeat split.
Qed.

(** C9, as the code has it: on a store whose mutex is free, [SetHandler] and
    [GetHandler] return with the mutex free again; every assignment to the
    map and every lookup happens while the mutex is held; the body of the
    request is read before the mutex is taken.  When the body decoded, the
    mutex is taken once, right after the body has been read, and released
    once, last, on return: nothing between the two takes or releases it, and
    the response (the acknowledgement, the not-found line or the encoded
    value) is written there, while the mutex is still held.  Only when the
    body did not decode is the response written with the mutex free, and
    then the mutex is never taken and the map is not accessed. *)
Theorem handlers_lock_discipline (store : KeyValueStore) (r : http.Request) :
  Mutex store = false ->
  lock_discipline (is_nil (Decode_SetRequest (http.Body r)).2)
                  (call SetHandler store r)
  /\ lock_discipline (is_nil (Decode_GetRequest (http.Body r)).2)
                     (call (GetHandler quote) store r).
Proof.
  intros Hm. split.
  - by apply SetHandler_lock_discipline.
  - by apply GetHandler_lock_discipline.
Qed.

End Mutex.

Lemma handlers_lock_discipline_a_1 :
  lock_discipline true (call SetHandler NewStore set_a_1)
  /\ lock_discipline true (call (GetHandler quote_plain) NewStore set_a_1).
Proof.
  apply (handlers_lock_discipline quote_plain NewStore set_a_1). reflexivity.
Defined.

(** C9 as stated fails: serving the request of scenario 1, [SetHandler]
    writes the status and the body of its response between taking the mutex
    and releasing it, so the mutex is held across a response write. *)
Lemma response_written_under_lock :
  (call SetHandler NewStore set_a_1).1 =
    [EvReadBody; EvLock; EvMapStore "a" "1";
     EvWriteHeader 200; EvWrite ("202" +:+ newline); EvUnlock]
  /\ annotate false (call SetHandler NewStore set_a_1).1 =
       [(EvReadBody, false); (EvMapStore "a" "1", true);
        (EvWriteHeader 200, true); (EvWrite ("202" +:+ newline), true)]
  /\ none_under_lock is_io (call SetHandler NewStore set_a_1).1 = false.
Proof. by repeat split. Qed.

(** ** Bodies that leave fields out *)

Lemma field_matches_fold (field name : string) :
  json.field_matches field name = true ->
  json.foldName name = json.foldName field.
Proof.
  unfold json.field_matches. intros H.
  apply orb_prop in H as [H | H].
  - apply String.eqb_eq in H. by subst.
  - by apply String.eqb_eq in H.
Qed.

(** No member name is stored in both fields. *)
Lemma field_matches_key_not_value (name : string) :
  json.field_matches "key" name = true ->
  json.field_matches "value" name = false.
Proof.
  intros Hk. destruct (json.field_matches "value" name) eqn:Hv; [| done].
  apply field_matches_fold in Hk, Hv. rewrite Hk in Hv. discriminate.
Qed.

Lemma object_SetRequest_given (members : list (string * json.value)) :
  forall payload,
    fields_are_strings members = true ->
    object_SetRequest members payload None =
      ({| SetRequest_Key :=
            default (SetRequest_Key payload) (given "key" members);
          SetRequest_Value :=
            default (SetRequest_Value payload) (given "value" members) |},
       None).
Proof.
  induction members as [| [name item] rest IH]; intros [k v] Hall.
  - reflexivity.
  - cbn [fields_are_strings forallb fst snd] in Hall.
    apply andb_prop in Hall as [Hitem Hrest].
    cbn [object_SetRequest given].
    destruct (json.field_matches "key" name) eqn:Hk.
    + rewrite (field_matches_key_not_value _ Hk).
      cbn [orb] in Hitem.
      destruct item; try discriminate; cbn [json.store_string json.saveError];
        rewrite (IH _ Hrest); cbn [SetRequest_Key SetRequest_Value];
        by destruct (given "key" rest), (given "value" rest).
    + destruct (json.field_matches "value" name) eqn:Hv.
      * cbn [orb] in Hitem.
        destruct item; try discriminate; cbn [json.store_string json.saveError];
          rewrite (IH _ Hrest); cbn [SetRequest_Key SetRequest_Value];
          by destruct (given "key" rest), (given "value" rest).
      * rewrite (IH _ Hrest). cbn [SetRequest_Key SetRequest_Value].
        by destruct (given "key" rest), (given "value" rest).
Qed.

Lemma Decode_SetRequest_object (members : list (string * json.value)) :
  fields_are_strings members = true ->
  Decode_SetRequest (json.Document (json.Object members)) =
    ({| SetRequest_Key := default "" (given "key" members);
        SetRequest_Value := default "" (given "value" members) |},
     None).
Proof.
  intros Hall. unfold Decode_SetRequest.
  by rewrite (object_SetRequest_given members _ Hall).
Qed.

Section MissingFields.

Variable quote : string -> string.


End MissingFields.



(** The body [{}]: the entry goes under the empty key with the empty
    value. *)
Example SetHandler_empty_object :
  Decode_SetRequest (http.Body set_empty_object)
    = ({| SetRequest_Key := ""; SetRequest_Value := "" |}, None)
  /\ kvMap (kv (final_state (call SetHandler NewStore set_empty_object).2))
     = <["" := ""]> ∅.
Proof. split; reflexivity. Qed.

(** A body that leaves the key out and gives a value, with a member that is
    no field and a field name in another case. *)
Example SetHandler_value_only :
  kvMap (kv (final_state
    (call SetHandler NewStore
       (NewRequest "/set"
          (json.Document
             (json.Object [("other", json.Number "5");
                           ("VALUE", json.String_ "x")])))).2))
  = <["" := "x"]> ∅.
Proof. reflexivity. Qed.

(** A member of a field that holds no string is a decode failure, also when
    the other field is left out. *)
Example SetHandler_value_of_wrong_type :
  Decode_SetRequest (json.Document (json.Object [("value", json.Number "5")]))
  = ({| SetRequest_Key := ""; SetRequest_Value := "" |},
     Some (json.TypeError
             {| json.Value := "number"; json.Type_ := "main.Value";
                json.Struct := "SetRequest"; json.Field := "value" |})).
Proof. reflexivity. Qed.

(** * Further properties *)

(** ** Configuration resolution *)

Section ConfigMore.

Import Config.

Lemma length_eqb_empty (s : string) :
  (String.length s =? 0)%nat = String.eqb s "".
Proof. by destruct s. Qed.

Lemma eqb_empty_false (s : string) : String.eqb s "" = false -> s <> "".
Proof. by intros H ->. Qed.

(** [main] in closed form: the shutdown timeout is looked at first, then the
    logging switch; a text in either variable is a panic. *)
Lemma main_closed_form version environ flags :
  main version environ flags =
    if String.eqb (Getenv environ "SHUTDOWN_TIMEOUT") "" then
      if String.eqb (Getenv environ "ENABLE_LOGGING_MIDDLEWARE") "" then
        Ok (resolved version environ flags)
      else Panic "interface conversion: interface {} is string, not bool"
    else Panic "interface conversion: interface {} is string, not time.Duration".
Proof.
  unfold main. rewrite address_default_ok, length_eqb_empty.
  unfold shutdownTimeout_default, enableLoggingMiddleware_default,
    useEnvOrDefaultIfNotSet.
  rewrite !length_eqb_empty.
  destruct (String.eqb (Getenv environ "SHUTDOWN_TIMEOUT") ""); [| reflexivity].
  destruct (String.eqb (Getenv environ "ENABLE_LOGGING_MIDDLEWARE") "");
    reflexivity.
Qed.

(** X1: [useEnvOrDefaultIfNotSet] panics in exactly these cases: the value
    from the environment is a [bool] or of a type the switch does not list,
    or it is a zero duration while the default is no duration.  For a type
    that is not listed the message names the type. *)
Theorem useEnvOrDefaultIfNotSet_panics_iff (envValue defaultValue : any) :
  ((exists msg, useEnvOrDefaultIfNotSet envValue defaultValue = Panic msg)
   <-> (exists b, envValue = OfBool b)
       \/ (exists t, envValue = OfOther t)
       \/ (envValue = OfDuration 0 /\ forall d, defaultValue <> OfDuration d))
  /\ (forall t, useEnvOrDefaultIfNotSet (OfOther t) defaultValue
                = Panic ("unexpected type " +:+ t)).
Proof.
  split; [| reflexivity]. split.
  - intros [msg H]. destruct envValue as [| s | d | b | t]; cbn in H.
    + discriminate.
    + by destruct (String.length s =? 0)%nat.
    + destruct (Z.eqb_spec d 0) as [-> | Hd]; [| discriminate].
      right. right. split; [reflexivity |].
      intros d' ->. discriminate.
    + left. by exists b.
    + right. left. by exists t.
  - intros [[b ->] | [[t ->] | [-> Hd]]]; cbn.
    + by eexists.
    + by eexists.
    + destruct defaultValue; cbn; try by eexists.
      by destruct (Hd d).
Qed.

(** X2: when [useEnvOrDefaultIfNotSet] returns, it returns the value from
    the environment itself if that is a string that is not empty or a
    duration that is not zero, whatever the type of the default, and the
    default otherwise. *)
Theorem useEnvOrDefaultIfNotSet_returns (envValue defaultValue v : any) :
  useEnvOrDefaultIfNotSet envValue defaultValue = Ok v ->
  (v = envValue
   /\ ((exists s, envValue = OfString s /\ s <> "")
       \/ (exists d, envValue = OfDuration d /\ d <> 0)))
  \/ (v = defaultValue
      /\ (envValue = Nil \/ envValue = OfString "" \/ envValue = OfDuration 0)).
Proof.
  intros H. destruct envValue as [| s | d | b | t]; cbn in H; try discriminate.
  - injection H as <-. right. by split; [| left].
  - rewrite length_eqb_empty in H.
    destruct (String.eqb s "") eqn:Hs; injection H as <-.
    + apply String.eqb_eq in Hs as ->. right. split; [done |]. by right; left.
    + left. split; [done |]. left. exists s. split; [done |].
      by apply eqb_empty_false.
  - destruct (Z.eqb_spec d 0) as [-> | Hd].
    + destruct defaultValue; cbn in H; try discriminate.
      injection H as <-. right. split; [done |]. by right; right.
    + injection H as <-. left. split; [done |]. right. by exists d.
Qed.

Lemma useEnvOrDefaultIfNotSet_returns_string_for_duration :
  useEnvOrDefaultIfNotSet (OfString "5s") (OfDuration (Second * 10))
    = Ok (OfString "5s")
  /\ ((OfString "5s" = OfString "5s"
       /\ ((exists s, OfString "5s" = OfString s /\ s <> "")
           \/ (exists d, OfString "5s" = OfDuration d /\ d <> 0)))
      \/ (OfString "5s" = OfDuration (Second * 10)
          /\ (OfString "5s" = Nil \/ OfString "5s" = OfString ""
              \/ OfString "5s" = OfDuration 0))).
Proof.
  split; [reflexivity |].
  apply (useEnvOrDefaultIfNotSet_returns
           (OfString "5s") (OfDuration (Second * 10)) (OfString "5s")).
  reflexivity.
Defined.

Lemma main_process_closed_form version environ args :
  main_process version environ args =
    if String.eqb (Getenv environ "SHUTDOWN_TIMEOUT") "" then
      if String.eqb (Getenv environ "ENABLE_LOGGING_MIDDLEWARE") "" then
        match args with
        | Refused status => Exits status
        | Parsed flags => Configured (resolved version environ flags)
        end
      else Panics "interface conversion: interface {} is string, not bool"
    else Panics "interface conversion: interface {} is string, not time.Duration".
Proof.
  unfold main_process. rewrite address_default_ok, length_eqb_empty.
  unfold shutdownTimeout_default, enableLoggingMiddleware_default,
    useEnvOrDefaultIfNotSet.
  rewrite !length_eqb_empty.
  destruct (String.eqb (Getenv environ "SHUTDOWN_TIMEOUT") ""); [| reflexivity].
  destruct (String.eqb (Getenv environ "ENABLE_LOGGING_MIDDLEWARE") "");
    [| reflexivity].
  by destruct args.
Qed.

(** X3: [main] gets as far as a configuration exactly when neither
    [SHUTDOWN_TIMEOUT] nor [ENABLE_LOGGING_MIDDLEWARE] holds a text and
    [flag.Parse] accepts the arguments.  A text in one of the two variables
    is a panic whatever the arguments, also those [flag.Parse] would refuse,
    since the defaults are computed first; no flag makes up for it.  On
    arguments that parse, the outcome is that of [main] on the parsed
    flags. *)
Theorem main_returns_iff
    (version : string) (environ : gmap string string) (args : CommandLine) :
  ((exists cfg, main_process version environ args = Configured cfg)
   <-> Getenv environ "SHUTDOWN_TIMEOUT" = ""
       /\ Getenv environ "ENABLE_LOGGING_MIDDLEWARE" = ""
       /\ exists flags, args = Parsed flags)
  /\ ((exists msg, main_process version environ args = Panics msg)
      <-> Getenv environ "SHUTDOWN_TIMEOUT" <> ""
          \/ Getenv environ "ENABLE_LOGGING_MIDDLEWARE" <> "")
  /\ (forall flags,
        main_process version environ (Parsed flags) =
          match main version environ flags with
          | Ok cfg => Configured cfg
          | Panic msg => Panics msg
          end).
Proof.
  rewrite main_process_closed_form.
  split; [| split].
  - split.
    + intros [cfg H].
      destruct (String.eqb (Getenv environ "SHUTDOWN_TIMEOUT") "") eqn:H1;
        [| discriminate].
      destruct (String.eqb (Getenv environ "ENABLE_LOGGING_MIDDLEWARE") "")
        eqn:H2; [| discriminate].
      apply String.eqb_eq in H1, H2.
      destruct args as [status | flags]; [discriminate |].
      split; [done |]. split; [done |]. by exists flags.
    + intros (-> & -> & flags & ->). by eexists.
  - split.
    + intros [msg H].
      destruct (String.eqb (Getenv environ "SHUTDOWN_TIMEOUT") "") eqn:H1.
      * destruct (String.eqb (Getenv environ "ENABLE_LOGGING_MIDDLEWARE") "")
          eqn:H2.
        -- by destruct args.
        -- right. by apply eqb_empty_false.
      * left. by apply eqb_empty_false.
    + intros [H | H].
      * apply String.eqb_neq in H. rewrite H. by eexists.
      * apply String.eqb_neq in H. rewrite H.
        destruct (String.eqb (Getenv environ "SHUTDOWN_TIMEOUT") "");
          by eexists.
  - intros flags. rewrite main_process_closed_form, main_closed_form.
    destruct (String.eqb (Getenv environ "SHUTDOWN_TIMEOUT") "");
      [| reflexivity].
    by destruct (String.eqb (Getenv environ "ENABLE_LOGGING_MIDDLEWARE") "").
Qed.

(** A command line [flag.Parse] refuses ends the process with its status
    when the environment is empty, and is a panic all the same when
    [SHUTDOWN_TIMEOUT] holds a text. *)
Example main_process_refused_arguments :
  main_process "1.5.0" ∅ (Refused 2) = Exits 2
  /\ main_process "1.5.0" {[ "SHUTDOWN_TIMEOUT" := "5s" ]} (Refused 2)
     = Panics "interface conversion: interface {} is string, not time.Duration".
Proof. split; reflexivity. Qed.

(** X4: in the configuration [main] returns, a flag that was given is the
    value of its setting; without the flag the address is the text of
    [SERVER_ADDRESS] when there is one and [localhost:8080] otherwise, the
    shutdown timeout is 10 seconds and the middleware is off.  So the
    environment reaches the address only, and the middleware is on only by
    its flag. *)
Theorem main_resolves
    (version : string) (environ : gmap string string) (flags : Flags)
    (cfg : ServerConfig) :
  main version environ flags = Ok cfg ->
  ServerAddress cfg =
    default (if String.eqb (Getenv environ "SERVER_ADDRESS") ""
             then "localhost:8080" else Getenv environ "SERVER_ADDRESS")
            (flag_address flags)
  /\ ShutdownTimeout cfg = default (Second * 10) (flag_shutdown_timeout flags)
  /\ EnableLoggingMiddleware cfg =
       default false (flag_enable_logging_middleware flags)
  /\ (EnableLoggingMiddleware cfg = true ->
      flag_enable_logging_middleware flags = Some true)
  /\ ServiceName cfg = "key-value-service-v1"
  /\ ServiceVersion cfg = version.
Proof.
  rewrite main_closed_form.
  destruct (String.eqb (Getenv environ "SHUTDOWN_TIMEOUT") ""); [| discriminate].
  destruct (String.eqb (Getenv environ "ENABLE_LOGGING_MIDDLEWARE") "");
    [| discriminate].
  intros [= <-]. cbn.
  repeat split; try reflexivity.
  by destruct (flag_enable_logging_middleware flags) as [[] |].
Qed.

Lemma main_resolves_address_from_environment :
  main "1.5.0" {[ "SERVER_ADDRESS" := "0.0.0.0:9000" ]}
       {| flag_address := None; flag_shutdown_timeout := Some (Second * 3);
          flag_enable_logging_middleware := None |}
    = Ok {| ServiceName := "key-value-service-v1";
            ServerAddress := "0.0.0.0:9000";
            ShutdownTimeout := 3000000000;
            EnableLoggingMiddleware := false;
            ServiceVersion := "1.5.0" |}
  /\ ServerAddress
       {| ServiceName := "key-value-service-v1";
          ServerAddress := "0.0.0.0:9000";
          ShutdownTimeout := 3000000000;
          EnableLoggingMiddleware := false;
          ServiceVersion := "1.5.0" |} = "0.0.0.0:9000".
Proof.
  split; [reflexivity |].
  destruct (main_resolves "1.5.0" {[ "SERVER_ADDRESS" := "0.0.0.0:9000" ]}
              {| flag_address := None;
                 flag_shutdown_timeout := Some (Second * 3);
                 flag_enable_logging_middleware := None |}
              {| ServiceName := "key-value-service-v1";
                 ServerAddress := "0.0.0.0:9000";
                 ShutdownTimeout := 3000000000;
                 EnableLoggingMiddleware := false;
                 ServiceVersion := "1.5.0" |})
    as (Haddr & _); [reflexivity |].
  exact Haddr.
Defined.

End ConfigMore.

(** ** Handlers and a mutex that is held *)

Lemma SetHandler_blocked r store payload :
  Mutex store = true ->
  Decode_SetRequest (http.Body r) = (payload, None) ->
  call SetHandler store r =
    ([EvReadBody],
     Blocks {| kv := store;
               w := httptest.Header_Set "Content-Type" "text/plain"
                      httptest.NewRecorder |}).
Proof.
  intros Hm Hd. unfold SetHandler. run_handler.
  rewrite Hd. simpl. unfold Lock. simpl. rewrite Hm. reflexivity.
Qed.

Lemma GetHandler_blocked quote r store payload :
  Mutex store = true ->
  Decode_GetRequest (http.Body r) = (payload, None) ->
  call (GetHandler quote) store r =
    ([EvReadBody],
     Blocks {| kv := store;
               w := httptest.Header_Set "Content-Type" "application/json"
                      httptest.NewRecorder |}).
Proof.
  intros Hm Hd. unfold GetHandler. run_handler.
  rewrite Hd. simpl. unfold Lock. simpl. rewrite Hm. reflexivity.
Qed.

Lemma store_eta store :
  {| Mutex := Mutex store; kvMap := kvMap store |} = store.
Proof. by destruct store. Qed.

Section HandlersMore.

Variable quote : string -> string.

(** X5: a [/get] request whose body fails to decode is answered with status
    400 and the text of the decode error on a line, whatever the state of
    the store, also while the mutex is held; the store is the one it was and
    the map is not looked at. *)
Theorem GetHandler_decode_failure
    (r : http.Request) (store : KeyValueStore) (payload : GetRequest)
    (e : json.error) :
  Decode_GetRequest (http.Body r) = (payload, Some e) ->
  exists s,
    call (GetHandler quote) store r =
      ([EvReadBody; EvWriteHeader http.StatusBadRequest;
        EvWrite (json.Error e +:+ newline)],
       Returns tt s)
    /\ httptest.Code (w s) = http.StatusBadRequest
    /\ httptest.Body (w s) = json.Error e +:+ newline
    /\ kv s = store.
Proof.
  intros Hd. rewrite (GetHandler_err _ _ _ _ _ Hd).
  eexists. by repeat split.
Qed.

Lemma GetHandler_store_unchanged (r : http.Request) (store : KeyValueStore) :
  kv (final_state (call (GetHandler quote) store r).2) = store.
Proof.
  destruct (Decode_GetRequest (http.Body r)) as [payload [err |]] eqn:Hd.
  - by rewrite (GetHandler_err _ _ _ _ _ Hd).
  - destruct (Mutex store) eqn:Hm.
    + by rewrite (GetHandler_blocked _ _ _ _ Hm Hd).
    + destruct (kvMap store !! GetRequest_Key payload) as [v |] eqn:Hk.
      * rewrite (GetHandler_found _ _ _ _ _ Hm Hd Hk). cbn.
        rewrite <- Hm. apply store_eta.
      * rewrite (GetHandler_missing _ _ _ _ Hm Hd Hk). cbn.
        rewrite <- Hm. apply store_eta.
Qed.

(** X6: [GetHandler] never changes the store: for every request and every
    store, with the mutex free or held, decoding or not, finding the key or
    not, the store it leaves is the store it met. *)
Theorem GetHandler_leaves_store
    (r : http.Request) (store : KeyValueStore) :
  kv (final_state (call (GetHandler quote) store r).2) = store.
Proof. apply GetHandler_store_unchanged. Qed.

(** X7: the two probes answer with status 200 and an empty body for every
    request, every store and every configuration, also while the mutex is
    held: after the log lines of the middleware, when that is switched on,
    they log one line with the path and fix the status; they neither take
    the mutex nor look at the map nor read the body, and the store is the
    one it was. *)
Theorem probes_always_succeed
    (env : Config.ServerConfig) (r : http.Request) (store : KeyValueStore) :
  let ok := {| kv := store;
               w := {| httptest.Code := http.StatusOK;
                       httptest.HeaderMap := ∅;
                       httptest.Body := "";
                       httptest.wroteHeader := true;
                       httptest.snapHeader := Some ∅ |} |} in
  let logged :=
    if Config.EnableLoggingMiddleware env then request_log r else [] in
  serve quote env store healthz r =
    ((logged ++ [EvLog ("Liveness probe called " +:+ http.URL_Path r);
                 EvWriteHeader http.StatusOK])%list, Returns tt ok)
  /\ serve quote env store readyz r =
       ((logged ++ [EvLog ("Readiness probe called " +:+ http.URL_Path r);
                    EvWriteHeader http.StatusOK])%list, Returns tt ok).
Proof.
  unfold serve, handler.
  destruct (Config.EnableLoggingMiddleware env);
    [rewrite !MiddlewareLogRequest_run |]; split; reflexivity.
Qed.

(** X8: a request that decodes and meets a held mutex waits: [SetHandler]
    and [GetHandler] have read the body and nothing else has happened, no
    access to the map and no byte of a response, and the store is
    untouched. *)
Theorem handlers_wait_for_mutex
    (store : KeyValueStore) (r_set r_get : http.Request)
    (p_set : SetRequest) (p_get : GetRequest) :
  Mutex store = true ->
  Decode_SetRequest (http.Body r_set) = (p_set, None) ->
  Decode_GetRequest (http.Body r_get) = (p_get, None) ->
  (exists s, call SetHandler store r_set = ([EvReadBody], Blocks s)
             /\ kv s = store
             /\ httptest.wroteHeader (w s) = false
             /\ httptest.Body (w s) = "")
  /\ (exists s, call (GetHandler quote) store r_get = ([EvReadBody], Blocks s)
                /\ kv s = store
                /\ httptest.wroteHeader (w s) = false
                /\ httptest.Body (w s) = "").
Proof.
  intros Hm Hset Hget.
  rewrite (SetHandler_blocked _ _ _ Hm Hset),
    (GetHandler_blocked _ _ _ _ Hm Hget).
  split; eexists; by repeat split.
Qed.

(** X9: the status of the response, for a store whose mutex is free.
    [SetHandler] answers 400 when the body does not decode and 200 when it
    does, so never 202; [GetHandler] answers 400 when the body does not
    decode, 404 when it decodes to a key the map lacks and 200 when it
    decodes to a key the map has. *)
Theorem handlers_status (store : KeyValueStore) (r : http.Request) :
  Mutex store = false ->
  (exists t s,
     call SetHandler store r = (t, Returns tt s)
     /\ httptest.Code (w s) =
          (if is_nil (Decode_SetRequest (http.Body r)).2
           then http.StatusOK else http.StatusBadRequest)
     /\ httptest.Code (w s) <> http.StatusAccepted)
  /\ (exists t s,
        call (GetHandler quote) store r = (t, Returns tt s)
        /\ httptest.Code (w s) =
             match Decode_GetRequest (http.Body r) with
             | (_, Some _) => http.StatusBadRequest
             | (payload, None) =>
                 if (lookup_ok (kvMap store) (GetRequest_Key payload)).2
                 then http.StatusOK else http.StatusNotFound
             end).
Proof.
  intros Hm. split.
  - destruct (Decode_SetRequest (http.Body r)) as [payload [err |]] eqn:Hd.
    + rewrite (SetHandler_err _ _ _ _ Hd). by eexists _, _.
    + rewrite (SetHandler_ok _ _ _ Hm Hd). by eexists _, _.
  - destruct (Decode_GetRequest (http.Body r)) as [payload [err |]] eqn:Hd.
    + rewrite (GetHandler_err _ _ _ _ _ Hd). by eexists _, _.
    + destruct (kvMap store !! GetRequest_Key payload) as [v |] eqn:Hk.
      * rewrite (GetHandler_found _ _ _ _ _ Hm Hd Hk),
          (lookup_ok_Some _ _ _ Hk). by eexists _, _.
      * rewrite (GetHandler_missing _ _ _ _ Hm Hd Hk),
          (lookup_ok_None _ _ Hk). by eexists _, _.
Qed.

(** X10: the Content-Type that is sent.  An answer with status 200 carries
    the type the handler set first, [text/plain] from [SetHandler] and
    [application/json] from [GetHandler]; every other answer (400, 404) was
    written by [http.Error], which replaces it by
    [text/plain; charset=utf-8] and adds [X-Content-Type-Options: nosniff]. *)
Theorem handlers_content_type (store : KeyValueStore) (r : http.Request) :
  Mutex store = false ->
  (exists t s,
     call SetHandler store r = (t, Returns tt s)
     /\ if httptest.Code (w s) =? http.StatusOK then
          sent_header "Content-Type" (w s) = Some ["text/plain"]
          /\ sent_header "X-Content-Type-Options" (w s) = None
        else
          sent_header "Content-Type" (w s) = Some ["text/plain; charset=utf-8"]
          /\ sent_header "X-Content-Type-Options" (w s) = Some ["nosniff"])
  /\ (exists t s,
        call (GetHandler quote) store r = (t, Returns tt s)
        /\ if httptest.Code (w s) =? http.StatusOK then
             sent_header "Content-Type" (w s) = Some ["application/json"]
             /\ sent_header "X-Content-Type-Options" (w s) = None
           else
             sent_header "Content-Type" (w s)
               = Some ["text/plain; charset=utf-8"]
             /\ sent_header "X-Content-Type-Options" (w s) = Some ["nosniff"]).
Proof.
  intros Hm. split.
  - destruct (Decode_SetRequest (http.Body r)) as [payload [err |]] eqn:Hd.
    + rewrite (SetHandler_err _ _ _ _ Hd). by eexists _, _.
    + rewrite (SetHandler_ok _ _ _ Hm Hd). by eexists _, _.
  - destruct (Decode_GetRequest (http.Body r)) as [payload [err |]] eqn:Hd.
    + rewrite (GetHandler_err _ _ _ _ _ Hd). by eexists _, _.
    + destruct (kvMap store !! GetRequest_Key payload) as [v |] eqn:Hk.
      * rewrite (GetHandler_found _ _ _ _ _ Hm Hd Hk). by eexists _, _.
      * rewrite (GetHandler_missing _ _ _ _ Hm Hd Hk). by eexists _, _.
Qed.

End HandlersMore.

(** ** The server as a whole *)

Section ServerMore.

Variable quote : string -> string.

(** X11: what the closure [handler] of [server] registers.  With the
    middleware switched off a route runs its handler as it is, with no log
    line for the request; switched on, the same route gives the same outcome
    (response and store), and its events are the log lines of the request
    followed by the events of the handler. *)
Theorem handler_wiring
    (env : Config.ServerConfig) (store : KeyValueStore)
    (e : Endpoint) (r : http.Request) :
  serve quote (with_logging false env) store e r
    = call (endpoints quote e) store r
  /\ (serve quote (with_logging true env) store e r).2
       = (call (endpoints quote e) store r).2
  /\ (serve quote (with_logging true env) store e r).1
       = (request_log r ++ (call (endpoints quote e) store r).1)%list.
Proof.
  split; [reflexivity |].
  unfold serve, handler, call. cbn [with_logging Config.EnableLoggingMiddleware].
  by rewrite MiddlewareLogRequest_run.
Qed.

Lemma applied_sets_cons req requests m :
  applied_sets (req :: requests) m = applied_sets requests (applied_sets [req] m).
Proof. reflexivity. Qed.

Lemma serve_store_exact env store e r :
  Mutex store = false ->
  kv (final_state (serve quote env store e r).2) =
    {| Mutex := false; kvMap := applied_sets [(e, r)] (kvMap store) |}.
Proof.
  intros Hm. rewrite serve_outcome.
  assert (store = {| Mutex := false; kvMap := kvMap store |}) as Hstore
    by (rewrite <- Hm; symmetry; apply store_eta).
  destruct e; cbn [endpoints applied_sets fold_left].
  - exact Hstore.
  - exact Hstore.
  - rewrite GetHandler_store_unchanged. exact Hstore.
  - destruct (Decode_SetRequest (http.Body r)) as [payload [err |]] eqn:Hd.
    + by rewrite (SetHandler_err _ _ _ _ Hd).
    + by rewrite (SetHandler_ok _ _ _ Hm Hd).
Qed.

Lemma serve_all_applied
    (env : Config.ServerConfig) (requests : list (Endpoint * http.Request)) :
  forall store,
    Mutex store = false ->
    serve_all quote env store requests =
      {| Mutex := false; kvMap := applied_sets requests (kvMap store) |}.
Proof.
  induction requests as [| [e r] rest IH]; intros store Hm.
  - cbn. rewrite <- Hm. symmetry. apply store_eta.
  - cbn [serve_all]. rewrite (serve_store_exact env store e r Hm).
    rewrite IH; [| reflexivity]. reflexivity.
Qed.

(** X12: the store after any requests served one after the other, from a
    store whose mutex is free: the mutex is free again, and the map is the
    one before with the payloads of the [/set] requests that decoded written
    into it in the order served.  Requests to [/get] and to the probes and
    [/set] requests that do not decode leave no trace in it, and neither the
    configuration nor the encoding of responses has a part in it. *)
Theorem serve_all_store
    (env : Config.ServerConfig) (requests : list (Endpoint * http.Request))
    (store : KeyValueStore) :
  Mutex store = false ->
  serve_all quote env store requests =
    {| Mutex := false; kvMap := applied_sets requests (kvMap store) |}.
Proof. apply serve_all_applied. Qed.

End ServerMore.

(** ** How writes compose *)

Section Composition.

Variable quote : string -> string.

(** X13: a write leaves the other keys alone.  After a [/set] request that
    decodes to the key [k], a [/get] request for another key is answered as
    it was before: the same events, the same response. *)
Theorem SetHandler_other_keys
    (store : KeyValueStore) (r_set r_get : http.Request)
    (p_set : SetRequest) (p_get : GetRequest) :
  Mutex store = false ->
  Decode_SetRequest (http.Body r_set) = (p_set, None) ->
  Decode_GetRequest (http.Body r_get) = (p_get, None) ->
  GetRequest_Key p_get <> SetRequest_Key p_set ->
  let store' := kv (final_state (call SetHandler store r_set).2) in
  lookup_ok (kvMap store') (GetRequest_Key p_get)
    = lookup_ok (kvMap store) (GetRequest_Key p_get)
  /\ (call (GetHandler quote) store' r_get).1
       = (call (GetHandler quote) store r_get).1
  /\ w (final_state (call (GetHandler quote) store' r_get).2)
       = w (final_state (call (GetHandler quote) store r_get).2).
Proof.
  intros Hm Hset Hget Hne store'.
  assert (Mutex store' = false) as Hm'
    by (unfold store'; by rewrite (SetHandler_ok _ _ _ Hm Hset)).
  assert (kvMap store' !! GetRequest_Key p_get
            = kvMap store !! GetRequest_Key p_get) as Hk.
  { unfold store'. rewrite (SetHandler_ok _ _ _ Hm Hset). cbn.
    by rewrite lookup_insert_ne. }
  split; [unfold lookup_ok; by rewrite Hk |].
  destruct (kvMap store !! GetRequest_Key p_get) as [v |] eqn:Hold.
  - rewrite (GetHandler_found _ _ _ _ _ Hm' Hget Hk),
      (GetHandler_found _ _ _ _ _ Hm Hget Hold). by split.
  - rewrite (GetHandler_missing _ _ _ _ Hm' Hget Hk),
      (GetHandler_missing _ _ _ _ Hm Hget Hold). by split.
Qed.

(** X14: sending a [/set] request a second time changes nothing: the store
    after the second run is the store after the first, and the second run
    has the events and the response of the first. *)
Theorem SetHandler_twice (store : KeyValueStore) (r : http.Request) :
  Mutex store = false ->
  let store' := kv (final_state (call SetHandler store r).2) in
  kv (final_state (call SetHandler store' r).2) = store'
  /\ (call SetHandler store' r).1 = (call SetHandler store r).1
  /\ w (final_state (call SetHandler store' r).2)
       = w (final_state (call SetHandler store r).2).
Proof.
  intros Hm store'. unfold store'.
  destruct (Decode_SetRequest (http.Body r)) as [payload [err |]] eqn:Hd.
  - rewrite (SetHandler_err _ _ _ _ Hd). cbn.
    by rewrite (SetHandler_err _ _ _ _ Hd).
  - rewrite (SetHandler_ok _ _ _ Hm Hd). cbn.
    erewrite SetHandler_ok; [| reflexivity | exact Hd]. cbn.
    by rewrite insert_insert_eq.
Qed.

(** X15: writes to different keys can be served in either order: two [/set]
    requests that decode to different keys leave the same store whichever
    comes first. *)
Theorem SetHandler_commute
    (store : KeyValueStore) (r1 r2 : http.Request) (p1 p2 : SetRequest) :
  Mutex store = false ->
  Decode_SetRequest (http.Body r1) = (p1, None) ->
  Decode_SetRequest (http.Body r2) = (p2, None) ->
  SetRequest_Key p1 <> SetRequest_Key p2 ->
  kv (final_state
        (call SetHandler (kv (final_state (call SetHandler store r1).2)) r2).2)
  = kv (final_state
          (call SetHandler (kv (final_state (call SetHandler store r2).2)) r1).2).
Proof.
  intros Hm H1 H2 Hne.
  rewrite (SetHandler_ok _ _ _ Hm H1), (SetHandler_ok _ _ _ Hm H2). cbn.
  erewrite !SetHandler_ok; [| reflexivity | exact H1 | reflexivity | exact H2].
  cbn. f_equal. by apply insert_insert_ne.
Qed.

End Composition.

(** ** Decoding *)

Lemma object_SetRequest_saved members : forall payload e,
  (object_SetRequest members payload (Some e)).2 = Some e.
Proof.
  induction members as [| [name item] rest IH]; intros payload e; [reflexivity |].
  cbn [object_SetRequest].
  destruct (json.field_matches "key" name).
  - destruct (json.store_string _ _ _ item _) as [k e']. apply IH.
  - destruct (json.field_matches "value" name); [| apply IH].
    destruct (json.store_string _ _ _ item _) as [v e']. apply IH.
Qed.

Lemma object_SetRequest_app pre rest : forall payload saved,
  object_SetRequest (pre ++ rest)%list payload saved =
    object_SetRequest rest (object_SetRequest pre payload saved).1
                           (object_SetRequest pre payload saved).2.
Proof.
  induction pre as [| [name item] pre IH]; intros payload saved; [reflexivity |].
  cbn [app object_SetRequest].
  destruct (json.field_matches "key" name).
  - destruct (json.store_string _ _ _ item _) as [k e']. apply IH.
  - destruct (json.field_matches "value" name); [| apply IH].
    destruct (json.store_string _ _ _ item _) as [v e']. apply IH.
Qed.

Lemma store_string_error struct_name field_name type_name item current :
  (json.store_string struct_name field_name type_name item current).2 =
    if is_string_or_null item then None
    else Some {| json.Value := json.describe item; json.Type_ := type_name;
                 json.Struct := struct_name; json.Field := field_name |}.
Proof. by destruct item. Qed.

Lemma object_SetRequest_no_error members : forall payload saved,
  (object_SetRequest members payload saved).2 = None ->
  saved = None /\ fields_are_strings members = true.
Proof.
  induction members as [| [name item] rest IH]; intros payload saved H.
  - by split.
  - cbn [object_SetRequest] in H.
    cbn [fields_are_strings forallb fst snd].
    destruct (json.field_matches "key" name) eqn:Hk; cbn [orb].
    + pose proof (store_string_error "SetRequest" name "main.Key" item
                    (SetRequest_Key payload)) as He.
      destruct (json.store_string _ _ _ item _) as [k e']. cbn in He.
      apply IH in H as [Hsaved Hrest]. fold (fields_are_strings rest).
      destruct saved; [discriminate |]. cbn in Hsaved. subst e'.
      destruct (is_string_or_null item); [by rewrite Hrest | discriminate].
    + destruct (json.field_matches "value" name) eqn:Hv.
      * pose proof (store_string_error "SetRequest" name "main.Value" item
                      (SetRequest_Value payload)) as He.
        destruct (json.store_string _ _ _ item _) as [v e']. cbn in He.
        apply IH in H as [Hsaved Hrest]. fold (fields_are_strings rest).
        destruct saved; [discriminate |]. cbn in Hsaved. subst e'.
        destruct (is_string_or_null item); [by rewrite Hrest | discriminate].
      * apply IH in H as [Hsaved Hrest]. fold (fields_are_strings rest).
        by rewrite Hrest.
Qed.

Lemma Decode_SetRequest_no_error (members : list (string * json.value)) :
  (Decode_SetRequest (json.Document (json.Object members))).2 = None ->
  fields_are_strings members = true.
Proof.
  intros H. unfold Decode_SetRequest in H.
  destruct (object_SetRequest members _ None) as [p e] eqn:Hobj.
  destruct e; [discriminate |].
  eapply (object_SetRequest_no_error members _ None). by rewrite Hobj.
Qed.

(** X16: decoding the object of a [/set] request returns an error exactly
    when some member that is stored in [key] or [value] holds something
    other than a string or [null]. *)
Theorem Decode_SetRequest_error_iff (members : list (string * json.value)) :
  (Decode_SetRequest (json.Document (json.Object members))).2 = None
  <-> fields_are_strings members = true.
Proof.
  split.
  - apply Decode_SetRequest_no_error.
  - intros H. by rewrite (Decode_SetRequest_object _ H).
Qed.

(** X17: the error reported is that of the first ill-typed member.  When the
    members before it are fine and the member [name] is stored in a field
    but holds no string, whatever follows, the error names the kind of JSON
    value found, the member as it is written and the type of the field, and
    [SetHandler] answers 400 with the line
    "json: cannot unmarshal KIND into Go struct field SetRequest.NAME of
    type TYPE" and leaves the store as it was. *)
Theorem SetHandler_first_mismatch
    (store : KeyValueStore) (r : http.Request)
    (pre post : list (string * json.value)) (name : string) (item : json.value) :
  http.Body r = json.Document (json.Object (pre ++ (name, item) :: post)%list) ->
  fields_are_strings pre = true ->
  is_field (name, item) = true ->
  is_string_or_null item = false ->
  let type := if json.field_matches "key" name then "main.Key" else "main.Value" in
  (Decode_SetRequest (http.Body r)).2 =
    Some (json.TypeError
            {| json.Value := json.describe item; json.Type_ := type;
               json.Struct := "SetRequest"; json.Field := name |})
  /\ exists t s,
       call SetHandler store r = (t, Returns tt s)
       /\ httptest.Code (w s) = http.StatusBadRequest
       /\ httptest.Body (w s) =
            ("json: cannot unmarshal " +:+ json.describe item
             +:+ " into Go struct field SetRequest." +:+ name
             +:+ " of type " +:+ type) +:+ newline
       /\ kv s = store.
Proof.
  intros Hbody Hpre Hfield Hitem type.
  assert ((Decode_SetRequest (http.Body r)).2 =
            Some (json.TypeError
                    {| json.Value := json.describe item; json.Type_ := type;
                       json.Struct := "SetRequest"; json.Field := name |}))
    as Herr.
  { rewrite Hbody. unfold Decode_SetRequest.
    rewrite object_SetRequest_app, (object_SetRequest_given pre _ Hpre).
    cbn [fst snd object_SetRequest]. unfold is_field in Hfield. cbn in Hfield.
    unfold type.
    destruct (json.field_matches "key" name) eqn:Hk.
    - pose proof (store_string_error "SetRequest" name "main.Key" item
                    (default "" (given "key" pre))) as He.
      cbn [SetRequest_Key].
      destruct (json.store_string _ _ _ item _) as [k e']. cbn in He.
      rewrite Hitem in He. subst e'. cbn [json.saveError].
      pose proof (object_SetRequest_saved post
        {| SetRequest_Key := k;
           SetRequest_Value := default "" (given "value" pre) |}
        {| json.Value := json.describe item; json.Type_ := "main.Key";
           json.Struct := "SetRequest"; json.Field := name |}) as Hs.
      cbn [SetRequest_Value].
      destruct (object_SetRequest post _ _) as [p e]. cbn in Hs. by subst e.
    - cbn [orb] in Hfield. rewrite Hfield.
      pose proof (store_string_error "SetRequest" name "main.Value" item
                    (default "" (given "value" pre))) as He.
      cbn [SetRequest_Value].
      destruct (json.store_string _ _ _ item _) as [v e']. cbn in He.
      rewrite Hitem in He. subst e'. cbn [json.saveError].
      pose proof (object_SetRequest_saved post
        {| SetRequest_Key := default "" (given "key" pre);
           SetRequest_Value := v |}
        {| json.Value := json.describe item; json.Type_ := "main.Value";
           json.Struct := "SetRequest"; json.Field := name |}) as Hs.
      cbn [SetRequest_Key].
      destruct (object_SetRequest post _ _) as [p e]. cbn in Hs. by subst e. }
  split; [exact Herr |].
  destruct (Decode_SetRequest (http.Body r)) as [payload err] eqn:Hd.
  cbn in Herr. subst err.
  rewrite (SetHandler_err _ _ _ _ Hd).
  eexists _, _. by repeat split.
Qed.

Lemma object_GetRequest_given (members : list (string * json.value)) :
  forall payload,
    key_members_are_strings members = true ->
    object_GetRequest members payload None =
      ({| GetRequest_Key :=
            default (GetRequest_Key payload) (given "key" members) |}, None).
Proof.
  induction members as [| [name item] rest IH]; intros [k] Hall.
  - reflexivity.
  - cbn [key_members_are_strings forallb fst snd] in Hall.
    apply andb_prop in Hall as [Hitem Hrest].
    cbn [object_GetRequest given].
    destruct (json.field_matches "key" name) eqn:Hk.
    + destruct item; try discriminate; cbn [json.store_string json.saveError];
        rewrite (IH _ Hrest); cbn [GetRequest_Key];
        by destruct (given "key" rest).
    + rewrite (IH _ Hrest). cbn [GetRequest_Key].
      by destruct (given "key" rest).
Qed.

Lemma fields_are_strings_key members :
  fields_are_strings members = true -> key_members_are_strings members = true.
Proof.
  unfold fields_are_strings, key_members_are_strings.
  induction members as [| [name item] rest IH]; [done |].
  cbn [forallb fst snd].
  intros H. apply andb_prop in H as [Hitem Hrest].
  rewrite (IH Hrest), andb_true_r.
  destruct (json.field_matches "key" name); [exact Hitem | reflexivity].
Qed.

(** A body that [/set] accepts is a body [/get] accepts, and it asks for the
    key it set. *)
Lemma Decode_GetRequest_of_SetRequest body payload :
  Decode_SetRequest body = (payload, None) ->
  Decode_GetRequest body = ({| GetRequest_Key := SetRequest_Key payload |}, None).
Proof.
  destruct body as [text | doc]; [discriminate |].
  destruct doc as [| b | lit | s | elements | members]; try discriminate.
  - by intros [= <-].
  - intros H.
    assert (fields_are_strings members = true) as Hall
      by (apply Decode_SetRequest_no_error; by rewrite H).
    rewrite (Decode_SetRequest_object _ Hall) in H. injection H as <-.
    unfold Decode_GetRequest.
    by rewrite (object_GetRequest_given _ _ (fields_are_strings_key _ Hall)).
Qed.

Section SameBody.

Variable quote : string -> string.

(** X18: the body of a [/set] request can be sent to [/get] as it is: when
    it decodes for [/set] it decodes for [/get], to the same key, the member
    for the value being skipped; served after the [/set] request it is
    answered with status 200 and the encoding of the value just set. *)
Theorem set_body_reads_back
    (store : KeyValueStore) (r : http.Request) (payload : SetRequest) :
  Mutex store = false ->
  Decode_SetRequest (http.Body r) = (payload, None) ->
  Decode_GetRequest (http.Body r)
    = ({| GetRequest_Key := SetRequest_Key payload |}, None)
  /\ exists t s,
       call (GetHandler quote)
            (kv (final_state (call SetHandler store r).2)) r
         = (t, Returns tt s)
       /\ httptest.Code (w s) = http.StatusOK
       /\ httptest.Body (w s) = encoded quote (SetRequest_Value payload).
Proof.
  intros Hm Hd.
  pose proof (Decode_GetRequest_of_SetRequest _ _ Hd) as Hget.
  split; [exact Hget |].
  rewrite (SetHandler_ok _ _ _ Hm Hd). cbn [snd final_state kv].
  erewrite GetHandler_found;
    [| reflexivity | exact Hget | apply lookup_insert_eq].
  by eexists _, _.
Qed.

End SameBody.

Lemma object_SetRequest_filter members : forall payload saved,
  object_SetRequest (List.filter is_field members) payload saved
  = object_SetRequest members payload saved.
Proof.
  induction members as [| [name item] rest IH]; intros payload saved;
    [reflexivity |].
  cbn [List.filter]. unfold is_field at 1. cbn [fst].
  destruct (json.field_matches "key" name) eqn:Hk; cbn [orb].
  - cbn [object_SetRequest]. rewrite Hk.
    destruct (json.store_string _ _ _ item _) as [k e']. apply IH.
  - destruct (json.field_matches "value" name) eqn:Hv.
    + cbn [object_SetRequest]. rewrite Hk, Hv.
      destruct (json.store_string _ _ _ item _) as [v e']. apply IH.
    + cbn [object_SetRequest]. rewrite Hk, Hv. apply IH.
Qed.

Lemma object_GetRequest_filter members : forall payload saved,
  object_GetRequest
    (List.filter (fun m : string * json.value => json.field_matches "key" m.1)
                 members) payload saved
  = object_GetRequest members payload saved.
Proof.
  induction members as [| [name item] rest IH]; intros payload saved;
    [reflexivity |].
  cbn [List.filter fst].
  destruct (json.field_matches "key" name) eqn:Hk.
  - cbn [object_GetRequest]. rewrite Hk.
    destruct (json.store_string _ _ _ item _) as [k e']. apply IH.
  - cbn [object_GetRequest]. rewrite Hk. apply IH.
Qed.

(** X19: members that are stored in no field are skipped, whatever they
    hold: decoding an object gives the payload and the error that decoding
    the object without them gives.  For [/get] this takes in the members
    named [value], so a value of any kind can ride along. *)
Theorem Decode_skips_unknown_members (members : list (string * json.value)) :
  Decode_SetRequest (json.Document (json.Object members))
    = Decode_SetRequest
        (json.Document (json.Object (List.filter is_field members)))
  /\ Decode_GetRequest (json.Document (json.Object members))
       = Decode_GetRequest
           (json.Document
              (json.Object
                 (List.filter
                    (fun m : string * json.value =>
                       json.field_matches "key" m.1) members))).
Proof.
  unfold Decode_SetRequest, Decode_GetRequest.
  by rewrite object_SetRequest_filter, object_GetRequest_filter.
Qed.

(** X20: a body whose first JSON value is a string, a number, a boolean or
    an array is refused by [SetHandler] with status 400 and the line
    "json: cannot unmarshal KIND into Go value of type main.SetRequest",
    the store left as it was; the value [null] is accepted and writes the
    empty value under the empty key. *)
Theorem SetHandler_document_kinds
    (store : KeyValueStore) (r : http.Request) (doc : json.value) :
  Mutex store = false ->
  http.Body r = json.Document doc ->
  exists t s,
    call SetHandler store r = (t, Returns tt s)
    /\ match doc with
       | json.Object _ => True
       | json.Null =>
           httptest.Code (w s) = http.StatusOK
           /\ kvMap (kv s) = <["" := ""]> (kvMap store)
       | _ =>
           httptest.Code (w s) = http.StatusBadRequest
           /\ httptest.Body (w s) =
                ("json: cannot unmarshal " +:+ json.describe doc
                 +:+ " into Go value of type main.SetRequest") +:+ newline
           /\ kv s = store
       end.
Proof.
  intros Hm Hbody.
  destruct (Decode_SetRequest (http.Body r)) as [payload [err |]] eqn:Hd.
  - rewrite (SetHandler_err _ _ _ _ Hd). eexists _, _. split; [reflexivity |].
    rewrite Hbody in Hd.
    destruct doc; try done; cbn in Hd; injection Hd as <- <-; by repeat split.
  - rewrite (SetHandler_ok _ _ _ Hm Hd). eexists _, _. split; [reflexivity |].
    rewrite Hbody in Hd.
    destruct doc; try done. cbn in Hd. injection Hd as <-. by split.
Qed.

(** ** Letter case of member names *)
















Lemma object_GetRequest_no_error members : forall payload saved,
  (object_GetRequest members payload saved).2 = None ->
  saved = None /\ key_members_are_strings members = true.
Proof.
  unfold key_members_are_strings.
  induction members as [| [name item] rest IH]; intros payload saved H.
  - by split.
  - cbn [object_GetRequest] in H. cbn [forallb fst snd].
    destruct (json.field_matches "key" name) eqn:Hk.
    + pose proof (store_string_error "GetRequest" name "main.Key" item
                    (GetRequest_Key payload)) as He.
      destruct (json.store_string _ _ _ item _) as [k e']. cbn in He.
      apply IH in H as [Hsaved Hrest].
      destruct saved; [discriminate |]. cbn in Hsaved. subst e'.
      destruct (is_string_or_null item); [by rewrite Hrest | discriminate].
    + apply IH in H as [Hsaved Hrest]. by rewrite Hrest.
Qed.

(** X22: decoding the object of a [/get] request returns an error exactly
    when some member that is stored in [key] holds something other than a
    string or [null]; without error, the key asked for is the last string
    given for [key], or the empty string when none is given. *)
Theorem Decode_GetRequest_error_iff (members : list (string * json.value)) :
  ((Decode_GetRequest (json.Document (json.Object members))).2 = None
   <-> key_members_are_strings members = true)
  /\ (key_members_are_strings members = true ->
      Decode_GetRequest (json.Document (json.Object members))
        = ({| GetRequest_Key := default "" (given "key" members) |}, None)).
Proof.
  assert (key_members_are_strings members = true ->
          Decode_GetRequest (json.Document (json.Object members))
            = ({| GetRequest_Key := default "" (given "key" members) |}, None))
    as Hok.
  { intros H. unfold Decode_GetRequest.
    by rewrite (object_GetRequest_given members _ H). }
  split; [| exact Hok]. split.
  - intros H. unfold Decode_GetRequest in H.
    destruct (object_GetRequest members _ None) as [p e] eqn:Hobj.
    destruct e; [discriminate |].
    eapply (object_GetRequest_no_error members _ None). by rewrite Hobj.
  - intros H. by rewrite (Hok H).
Qed.

(** ** Keys over a run of the server *)

Lemma applied_sets_app pre post m :
  applied_sets (pre ++ post)%list m = applied_sets post (applied_sets pre m).
Proof. apply fold_left_app. Qed.

Lemma applied_sets_unwritten k requests : forall m,
  forallb (fun req => negb (writes_key k req)) requests = true ->
  applied_sets requests m !! k = m !! k.
Proof.
  induction requests as [| [e r] rest IH]; intros m Hall; [reflexivity |].
  cbn [forallb] in Hall. apply andb_prop in Hall as [Hreq Hrest].
  rewrite applied_sets_cons, (IH _ Hrest).
  cbn [applied_sets fold_left]. unfold writes_key in Hreq.
  destruct e; try reflexivity.
  destruct (Decode_SetRequest (http.Body r)) as [payload [err |]];
    [reflexivity |].
  apply negb_true_iff, String.eqb_neq in Hreq.
  by rewrite lookup_insert_ne.
Qed.

Lemma applied_sets_keeps_keys k requests : forall m,
  is_Some (m !! k) -> is_Some (applied_sets requests m !! k).
Proof.
  induction requests as [| [e r] rest IH]; intros m Hk; [exact Hk |].
  rewrite applied_sets_cons. apply IH.
  cbn [applied_sets fold_left].
  destruct e; try exact Hk.
  destruct (Decode_SetRequest (http.Body r)) as [payload [err |]];
    [exact Hk |].
  rewrite lookup_insert. case_decide; [by eexists | exact Hk].
Qed.

Section Keys.

Variable quote : string -> string.

(** X23: no request removes a key, and a key nobody writes keeps its value.
    After any requests served from a store whose mutex is free, a key that
    was in the map is still in it; and when no [/set] request among them
    decoded to the key, the map gives for it what it gave before. *)
Theorem serve_all_keeps_keys
    (env : Config.ServerConfig) (requests : list (Endpoint * http.Request))
    (store : KeyValueStore) (k : Key) :
  Mutex store = false ->
  (is_Some (kvMap store !! k) ->
   is_Some (kvMap (serve_all quote env store requests) !! k))
  /\ (forallb (fun req => negb (writes_key k req)) requests = true ->
      kvMap (serve_all quote env store requests) !! k = kvMap store !! k).
Proof.
  intros Hm. rewrite (serve_all_applied quote env requests store Hm).
  cbn [kvMap]. split.
  - apply applied_sets_keeps_keys.
  - apply applied_sets_unwritten.
Qed.

(** X24: the last writer wins over any run.  When a [/set] request decodes
    to [k] and [v] and none of the [/set] requests served after it decodes to
    [k], then, whatever was served before and whatever else is served after,
    the map holds [v] under [k], and a [/get] request for [k] is answered
    with status 200 and the encoding of [v]. *)
Theorem last_writer_wins_over_run
    (env : Config.ServerConfig) (store : KeyValueStore)
    (before after : list (Endpoint * http.Request))
    (r r_get : http.Request) (k : Key) (v : Value) :
  Mutex store = false ->
  Decode_SetRequest (http.Body r)
    = ({| SetRequest_Key := k; SetRequest_Value := v |}, None) ->
  forallb (fun req => negb (writes_key k req)) after = true ->
  Decode_GetRequest (http.Body r_get) = ({| GetRequest_Key := k |}, None) ->
  let served := serve_all quote env store (before ++ (set, r) :: after)%list in
  kvMap served !! k = Some v
  /\ exists t s,
       call (GetHandler quote) served r_get = (t, Returns tt s)
       /\ httptest.Code (w s) = http.StatusOK
       /\ httptest.Body (w s) = encoded quote v.
Proof.
  intros Hm Hd Hafter Hget served.
  assert (Mutex served = false /\ kvMap served !! k = Some v) as [Hm' Hk].
  { unfold served. rewrite (serve_all_applied quote env _ store Hm).
    split; [reflexivity |]. cbn [kvMap].
    rewrite applied_sets_app, applied_sets_cons,
      (applied_sets_unwritten k after _ Hafter).
    cbn [applied_sets fold_left]. rewrite Hd.
    cbn [SetRequest_Key SetRequest_Value]. apply lookup_insert_eq. }
  split; [exact Hk |].
  rewrite (GetHandler_found quote r_get served _ v Hm' Hget Hk).
  by eexists _, _.
Qed.

End Keys.

(** ** The further properties at sample inputs *)

Lemma GetHandler_decode_failure_number :
  exists s,
    call (GetHandler quote_plain) held_store get_number =
      ([EvReadBody; EvWriteHeader 400;
        EvWrite ("json: cannot unmarshal number into Go value of type main.GetRequest"
                 +:+ newline)],
       Returns tt s)
    /\ httptest.Code (w s) = 400
    /\ httptest.Body (w s) =
         "json: cannot unmarshal number into Go value of type main.GetRequest"
         +:+ newline
    /\ kv s = held_store.
Proof.
  apply (GetHandler_decode_failure quote_plain get_number held_store
           {| GetRequest_Key := "" |}
           (json.TypeError
              {| json.Value := "number"; json.Type_ := "main.GetRequest";
                 json.Struct := ""; json.Field := "" |})).
  reflexivity.
Defined.

Lemma handlers_wait_for_mutex_held :
  (exists s, call SetHandler held_store set_a_1 = ([EvReadBody], Blocks s)
             /\ kv s = held_store
             /\ httptest.wroteHeader (w s) = false
             /\ httptest.Body (w s) = "")
  /\ (exists s, call (GetHandler quote_plain) held_store get_a
                  = ([EvReadBody], Blocks s)
                /\ kv s = held_store
                /\ httptest.wroteHeader (w s) = false
                /\ httptest.Body (w s) = "").
Proof.
  apply (handlers_wait_for_mutex quote_plain held_store set_a_1 get_a
           {| SetRequest_Key := "a"; SetRequest_Value := "1" |}
           {| GetRequest_Key := "a" |}); reflexivity.
Defined.

Lemma handlers_status_a_1 :
  (exists t s,
     call SetHandler NewStore set_a_1 = (t, Returns tt s)
     /\ httptest.Code (w s) = 200
     /\ httptest.Code (w s) <> 202)
  /\ (exists t s,
        call (GetHandler quote_plain) NewStore set_a_1 = (t, Returns tt s)
        /\ httptest.Code (w s) = 404).
Proof.
  apply (handlers_status quote_plain NewStore set_a_1). reflexivity.
Defined.

Lemma handlers_content_type_a_1 :
  (exists t s,
     call SetHandler NewStore set_a_1 = (t, Returns tt s)
     /\ sent_header "Content-Type" (w s) = Some ["text/plain"]
     /\ sent_header "X-Content-Type-Options" (w s) = None)
  /\ (exists t s,
        call (GetHandler quote_plain) NewStore set_a_1 = (t, Returns tt s)
        /\ sent_header "Content-Type" (w s)
             = Some ["text/plain; charset=utf-8"]
        /\ sent_header "X-Content-Type-Options" (w s) = Some ["nosniff"]).
Proof.
  destruct (handlers_content_type quote_plain NewStore set_a_1)
    as [(t1 & s1 & Hrun1 & H1) (t2 & s2 & Hrun2 & H2)]; [reflexivity |].
  injection Hrun1 as <- <-. injection Hrun2 as <- <-.
  split; eexists _, _; (split; [reflexivity |]); [exact H1 | exact H2].
Defined.

Lemma serve_all_store_five_requests :
  serve_all quote_plain logging_on NewStore five_requests
    = {| Mutex := false; kvMap := <["b" := "2"]> (<["a" := "1"]> ∅) |}.
Proof.
  apply (serve_all_store quote_plain logging_on five_requests NewStore).
  reflexivity.
Defined.

Lemma SetHandler_other_keys_a_missing :
  let store' := kv (final_state (call SetHandler NewStore set_a_1).2) in
  lookup_ok (kvMap store') "missing" = lookup_ok (kvMap NewStore) "missing"
  /\ (call (GetHandler quote_plain) store' get_missing).1
       = (call (GetHandler quote_plain) NewStore get_missing).1
  /\ w (final_state (call (GetHandler quote_plain) store' get_missing).2)
       = w (final_state (call (GetHandler quote_plain) NewStore get_missing).2).
Proof.
  apply (SetHandler_other_keys quote_plain NewStore set_a_1 get_missing
           {| SetRequest_Key := "a"; SetRequest_Value := "1" |}
           {| GetRequest_Key := "missing" |});
    [reflexivity | reflexivity | reflexivity | discriminate].
Defined.

Lemma SetHandler_twice_a_1 :
  let store' := kv (final_state (call SetHandler NewStore set_a_1).2) in
  kv (final_state (call SetHandler store' set_a_1).2) = store'
  /\ (call SetHandler store' set_a_1).1 = (call SetHandler NewStore set_a_1).1
  /\ w (final_state (call SetHandler store' set_a_1).2)
       = w (final_state (call SetHandler NewStore set_a_1).2).
Proof. apply (SetHandler_twice NewStore set_a_1). reflexivity. Defined.

Lemma SetHandler_commute_a_b :
  kv (final_state
        (call SetHandler
              (kv (final_state (call SetHandler NewStore set_a_1).2)) set_b_2).2)
  = kv (final_state
          (call SetHandler
                (kv (final_state (call SetHandler NewStore set_b_2).2))
                set_a_1).2).
Proof.
  apply (SetHandler_commute NewStore set_a_1 set_b_2
           {| SetRequest_Key := "a"; SetRequest_Value := "1" |}
           {| SetRequest_Key := "b"; SetRequest_Value := "2" |});
    [reflexivity | reflexivity | reflexivity | discriminate].
Defined.

Lemma SetHandler_first_mismatch_value_number :
  (Decode_SetRequest (http.Body set_value_number)).2 =
    Some (json.TypeError
            {| json.Value := "number"; json.Type_ := "main.Value";
               json.Struct := "SetRequest"; json.Field := "VALUE" |})
  /\ exists t s,
       call SetHandler NewStore set_value_number = (t, Returns tt s)
       /\ httptest.Code (w s) = 400
       /\ httptest.Body (w s) =
            "json: cannot unmarshal number into Go struct field SetRequest.VALUE of type main.Value"
            +:+ newline
       /\ kv s = NewStore.
Proof.
  apply (SetHandler_first_mismatch NewStore set_value_number
           [("key", json.String_ "a")] [("key", json.Bool true)]
           "VALUE" (json.Number "5")); reflexivity.
Defined.

Lemma set_body_reads_back_a_1 :
  Decode_GetRequest (http.Body set_a_1) = ({| GetRequest_Key := "a" |}, None)
  /\ exists t s,
       call (GetHandler quote_plain)
            (kv (final_state (call SetHandler NewStore set_a_1).2)) set_a_1
         = (t, Returns tt s)
       /\ httptest.Code (w s) = 200
       /\ httptest.Body (w s) = encoded quote_plain "1".
Proof.
  apply (set_body_reads_back quote_plain NewStore set_a_1
           {| SetRequest_Key := "a"; SetRequest_Value := "1" |});
    reflexivity.
Defined.

Lemma SetHandler_document_kinds_string :
  exists t s,
    call SetHandler NewStore set_malformed = (t, Returns tt s)
    /\ httptest.Code (w s) = 400
    /\ httptest.Body (w s) =
         "json: cannot unmarshal string into Go value of type main.SetRequest"
         +:+ newline
    /\ kv s = NewStore.
Proof.
  apply (SetHandler_document_kinds NewStore set_malformed
           (json.String_ "value")); reflexivity.
Defined.

Lemma serve_all_keeps_keys_a :
  (is_Some (kvMap (kv (final_state (call SetHandler NewStore set_a_1).2)) !! "a") ->
   is_Some
     (kvMap (serve_all quote_plain logging_on
               (kv (final_state (call SetHandler NewStore set_a_1).2))
               five_requests) !! "a"))
  /\ kvMap (serve_all quote_plain logging_on NewStore five_requests) !! "missing"
       = None.
Proof.
  split.
  - apply (serve_all_keeps_keys quote_plain logging_on five_requests
             (kv (final_state (call SetHandler NewStore set_a_1).2)) "a").
    reflexivity.
  - apply (serve_all_keeps_keys quote_plain logging_on five_requests
             NewStore "missing"); reflexivity.
Defined.

Lemma last_writer_wins_over_run_a :
  let served :=
    serve_all quote_plain logging_on NewStore
      ([(set, set_a_2); (get, get_a)] ++ (set, set_a_1)
         :: [(set, set_b_2); (set, set_malformed); (readyz, get_a)])%list in
  kvMap served !! "a" = Some "1"
  /\ exists t s,
       call (GetHandler quote_plain) served get_a = (t, Returns tt s)
       /\ httptest.Code (w s) = 200
       /\ httptest.Body (w s) = encoded quote_plain "1".
Proof.
  apply (last_writer_wins_over_run quote_plain logging_on NewStore
           [(set, set_a_2); (get, get_a)]
           [(set, set_b_2); (set, set_malformed); (readyz, get_a)]
           set_a_1 get_a "a" "1"); reflexivity.
Defined.

(** The cases of the repository's test of [useEnvOrDefaultIfNotSet]: a
    parsed duration is returned, an unset and an empty variable give the
    default, a value of type [[]int] panics with the message the test
    expects. *)
Example TestUseEnvOrDefaultIfNotSet_cases :
  Config.useEnvOrDefaultIfNotSet
    (Config.OfDuration (10 * Config.Second))
    (Config.OfDuration (10 * Config.Second))
    = Config.Ok (Config.OfDuration (10 * Config.Second))
  /\ Config.useEnvOrDefaultIfNotSet
       (Config.OfString (Config.Getenv ∅ "ENV_VAR"))
       (Config.OfDuration (20 * Config.Second))
       = Config.Ok (Config.OfDuration (20 * Config.Second))
  /\ Config.useEnvOrDefaultIfNotSet
       (Config.OfString (Config.Getenv {[ "ENV_VAR" := "" ]} "ENV_VAR"))
       (Config.OfDuration (30 * Config.Second))
       = Config.Ok (Config.OfDuration (30 * Config.Second))
  /\ Config.useEnvOrDefaultIfNotSet
       (Config.OfOther "[]int") (Config.OfDuration (30 * Config.Second))
       = Config.Panic "unexpected type []int".
Proof. by repeat split. Qed.

(** A [/get] body with a value of another kind riding along. *)
Lemma Decode_GetRequest_error_iff_value_rides_along :
  key_members_are_strings [("key", json.String_ "a"); ("value", json.Number "5")]
    = true
  /\ Decode_GetRequest
       (json.Document
          (json.Object [("key", json.String_ "a"); ("value", json.Number "5")]))
     = ({| GetRequest_Key := "a" |}, None).
Proof.
  split; [reflexivity |].
  destruct (Decode_GetRequest_error_iff
              [("key", json.String_ "a"); ("value", json.Number "5")])
    as [_ Hok].
  apply Hok. reflexivity.
Defined.
